(** * scripts/extract_images.py: PDF image extraction over PyMuPDF

    A shallow embedding of [extract_images_from_pdf] and [main].  The PDF
    library (fitz), [base64] and [json] are the script's collaborators: the
    first is an oracle the theorems quantify over, the second is modelled
    after RFC 4648, the third is kept symbolic. *)

From Stdlib Require Import List String Ascii ZArith NArith Lia Bool.
From Stdlib Require Import Strings.Byte.
From Stdlib Require Import Floats.SpecFloat.
Import ListNotations.
Set Warnings "-register-all".

Open Scope string_scope.
Open Scope Z_scope.

(** ** Python values that reach [json.dumps] *)

(** A Python [int] and a Python [float] are different values: [0] is
    serialised as [0], [0.0] as [0.0].  A [dict] keeps insertion order, so it
    is an association list. *)
Inductive pyval : Type :=
| PyBool (b : bool)
| PyInt (z : Z)
| PyFloat (f : spec_float)
| PyStr (s : string)
| PyList (l : list pyval)
| PyDict (kv : list (string * pyval)).

Fixpoint assoc_get (k : string) (kv : list (string * pyval)) : option pyval :=
  match kv with
  | [] => None
  | (k', v) :: rest => if String.eqb k k' then Some v else assoc_get k rest
  end.

(** [d[k]] on a value that is a dict. *)
Definition dict_get (k : string) (d : pyval) : option pyval :=
  match d with
  | PyDict kv => assoc_get k kv
  | _ => None
  end.

Definition is_float (v : pyval) : bool :=
  match v with PyFloat _ => true | _ => false end.

(** ** Exceptions *)

(** An instance of [Exception] (or of a subclass); [msg] is [str(e)]. *)
Inductive exn : Type := Exn (msg : string).

Definition str_exn (e : exn) : string := match e with Exn m => m end.

Inductive result (A : Type) : Type :=
| Return (a : A)
| Raise (e : exn).
Arguments Return {A} a.
Arguments Raise {A} e.

Definition rbind {A B} (r : result A) (k : A -> result B) : result B :=
  match r with
  | Return a => k a
  | Raise e => Raise e
  end.

(** ** The PyMuPDF interface, as the script uses it *)

(** The library is read as a function of the file, which the script does not
    modify: the same call on the same document gives the same answer.  Any
    call but [close] may raise. *)

Definition xref := Z.

(** A [fitz.Rect], through the four attributes the script reads; the library
    hands them out as floats. *)
Record Rect : Type := mkRect {
  x0 : spec_float;
  y0 : spec_float;
  width : spec_float;
  height : spec_float
}.

(** One entry of [page.get_images(full=True)]: a tuple whose item 0 is the
    cross-reference number. *)
Record ImageItem : Type := mkItem {
  item0 : xref;
  item_rest : list pyval
}.

(** The dict returned by [doc.extract_image(xref)]; a key may be absent. *)
Record BaseImage : Type := mkBase {
  image : option (list byte);
  ext : option string
}.

Record Page : Type := mkPage {
  get_images : result (list ImageItem);
  get_image_rects : xref -> result (list Rect)
}.

Record Document : Type := mkDoc {
  doc_len : result nat;                       (* len(doc) *)
  doc_getitem : nat -> result Page;           (* doc[page_num] *)
  extract_image : xref -> result BaseImage    (* doc.extract_image(xref) *)
}.

(** What [fitz.open] makes of each path. *)
Definition FileSystem := string -> result Document.

(** ** Open document handles *)

Record World : Type := mkWorld {
  next_id : nat;
  open_ids : list nat
}.

Record Handle : Type := mkHandle {
  handle_id : nat;
  handle_doc : Document
}.

Definition M (A : Type) : Type := World -> result A * World.

Definition ret {A} (a : A) : M A := fun w => (Return a, w).

Definition bind {A B} (m : M A) (k : A -> M B) : M B :=
  fun w => match m w with
           | (Return a, w') => k a w'
           | (Raise e, w') => (Raise e, w')
           end.

Definition lift {A} (r : result A) : M A := fun w => (r, w).

Declare Scope py_scope.
Delimit Scope py_scope with py.
Notation "x <- m ;; k" := (bind m (fun x => k))
  (at level 100, m at next level, right associativity) : py_scope.
Notation "x <~ r ;; k" := (rbind r (fun x => k))
  (at level 100, r at next level, right associativity) : py_scope.

(** [fitz.open(pdf_path)] *)
Definition fitz_open (fs : FileSystem) (pdf_path : string) : M Handle :=
  fun w => match fs pdf_path with
           | Raise e => (Raise e, w)
           | Return d =>
               (Return (mkHandle (next_id w) d),
                mkWorld (S (next_id w)) (next_id w :: open_ids w))
           end.

(** [doc.close()] *)
Definition doc_close (h : Handle) : M unit :=
  fun w => (Return tt,
            mkWorld (next_id w)
                    (filter (fun i => negb (Nat.eqb i (handle_id h))) (open_ids w))).

Definition is_open (i : nat) (w : World) : bool :=
  existsb (Nat.eqb i) (open_ids w).

(** ** base64.b64encode, after RFC 4648 section 4 *)

(** [base64.b64encode(bs).decode('utf-8')]: the encoded bytes are ASCII, so
    the text is given as a string at once. *)

Definition b64_alphabet : list ascii :=
  list_ascii_of_string
    "ABCDEFGHIJKLMNOPQRSTUVWXYZabcdefghijklmnopqrstuvwxyz0123456789+/".

Definition b64_pad : ascii := "="%char.

Definition b64_char (n : N) : ascii :=
  nth (N.to_nat n) b64_alphabet b64_pad.

Fixpoint index_of (c : ascii) (l : list ascii) (i : N) : option N :=
  match l with
  | [] => None
  | c' :: rest => if Ascii.eqb c c' then Some i else index_of c rest (N.succ i)
  end.

Definition b64_index (c : ascii) : option N := index_of c b64_alphabet 0%N.

Definition sextet1 (a : N) : N := (a / 4)%N.
Definition sextet2 (a b : N) : N := ((a mod 4) * 16 + b / 16)%N.
Definition sextet3 (b c : N) : N := ((b mod 16) * 4 + c / 64)%N.
Definition sextet4 (c : N) : N := (c mod 64)%N.

Fixpoint b64encode (bs : list byte) : string :=
  match bs with
  | [] => EmptyString
  | [a] =>
      let a := Byte.to_N a in
      String (b64_char (sextet1 a)) (String (b64_char (sextet2 a 0))
        (String b64_pad (String b64_pad EmptyString)))
  | [a; b] =>
      let a := Byte.to_N a in
      let b := Byte.to_N b in
      String (b64_char (sextet1 a)) (String (b64_char (sextet2 a b))
        (String (b64_char (sextet3 b 0)) (String b64_pad EmptyString)))
  | a :: b :: c :: rest =>
      let a := Byte.to_N a in
      let b := Byte.to_N b in
      let c := Byte.to_N c in
      String (b64_char (sextet1 a)) (String (b64_char (sextet2 a b))
        (String (b64_char (sextet3 b c)) (String (b64_char (sextet4 c))
          (b64encode rest))))
  end.

(** The strict decoder of the same section: four characters give three
    bytes, padding is accepted in the last group only. *)
Definition octet1 (s1 s2 : N) : N := (s1 * 4 + s2 / 16)%N.
Definition octet2 (s2 s3 : N) : N := ((s2 mod 16) * 16 + s3 / 4)%N.
Definition octet3 (s3 s4 : N) : N := ((s3 mod 4) * 64 + s4)%N.

Definition cons_byte (n : N) (r : option (list byte)) : option (list byte) :=
  match Byte.of_N n, r with
  | Some b, Some l => Some (b :: l)
  | _, _ => None
  end.

Fixpoint b64decode (s : string) : option (list byte) :=
  match s with
  | EmptyString => Some []
  | String c1 (String c2 (String c3 (String c4 rest))) =>
      match b64_index c1, b64_index c2 with
      | Some s1, Some s2 =>
          if Ascii.eqb c4 b64_pad then
            match rest with
            | EmptyString =>
                if Ascii.eqb c3 b64_pad then cons_byte (octet1 s1 s2) (Some [])
                else match b64_index c3 with
                     | Some s3 =>
                         cons_byte (octet1 s1 s2)
                           (cons_byte (octet2 s2 s3) (Some []))
                     | None => None
                     end
            | _ => None
            end
          else
            match b64_index c3, b64_index c4 with
            | Some s3, Some s4 =>
                cons_byte (octet1 s1 s2)
                  (cons_byte (octet2 s2 s3)
                     (cons_byte (octet3 s3 s4) (b64decode rest)))
            | _, _ => None
            end
      | _, _ => None
      end
  | _ => None
  end.

(** ** extract_images_from_pdf *)

Open Scope py_scope.

(** [{"x": 0, "y": 0, "width": 0, "height": 0}]: the literals are ints. *)
Definition zero_bbox : pyval :=
  PyDict [("x", PyInt 0); ("y", PyInt 0); ("width", PyInt 0); ("height", PyInt 0)].

(** [float(v)] on a float is the float itself. *)
Definition rect_bbox (rect : Rect) : pyval :=
  PyDict [("x", PyFloat (x0 rect)); ("y", PyFloat (y0 rect));
          ("width", PyFloat (width rect)); ("height", PyFloat (height rect))].

(** [if rects: rect = rects[0] ... else: ...] *)
Definition bbox_of_rects (rects : list Rect) : pyval :=
  match rects with
  | rect :: _ => rect_bbox rect
  | [] => zero_bbox
  end.

(** [d[k]]; a missing key raises [KeyError(k)], whose [str] is the quoted key. *)
Definition getitem_key {A} (k : string) (o : option A) : result A :=
  match o with
  | Some a => Return a
  | None => Raise (Exn ("'" ++ k ++ "'"))
  end.

Definition image_record (page_num image_index : nat)
    (image_ext image_base64 : string) (bbox : pyval) : pyval :=
  PyDict [("pageNumber", PyInt (Z.of_nat page_num + 1));
          ("imageIndex", PyInt (Z.of_nat image_index));
          ("format", PyStr image_ext);
          ("base64", PyStr image_base64);
          ("bbox", bbox)].

(** The body of the inner loop, up to the dict that is appended. *)
Definition extract_one (doc : Document) (page : Page)
    (page_num image_index : nat) (img : ImageItem) : result pyval :=
  let xref := item0 img in
  base_image <~ extract_image doc xref ;;
  image_bytes <~ getitem_key "image" (image base_image) ;;
  image_ext <~ getitem_key "ext" (ext base_image) ;;
  rects <~ get_image_rects page xref ;;
  let bbox := bbox_of_rects rects in
  let image_base64 := b64encode image_bytes in
  Return (image_record page_num image_index image_ext image_base64 bbox).

Definition enumerate {A} (l : list A) : list (nat * A) :=
  combine (seq 0 (List.length l)) l.

(** [for image_index, img in enumerate(image_list): ...], threading the
    list that [append] grows. *)
Fixpoint images_loop (doc : Document) (page : Page) (page_num : nat)
    (items : list (nat * ImageItem)) (extracted_images : list pyval)
    : result (list pyval) :=
  match items with
  | [] => Return extracted_images
  | (image_index, img) :: rest =>
      r <~ extract_one doc page page_num image_index img ;;
      images_loop doc page page_num rest (extracted_images ++ [r])
  end.

(** [for page_num in range(len(doc)): ...] *)
Fixpoint pages_loop (doc : Document) (page_nums : list nat)
    (extracted_images : list pyval) : result (list pyval) :=
  match page_nums with
  | [] => Return extracted_images
  | page_num :: rest =>
      page <~ doc_getitem doc page_num ;;
      image_list <~ get_images page ;;
      extracted_images' <~
        images_loop doc page page_num (enumerate image_list) extracted_images ;;
      pages_loop doc rest extracted_images'
  end.

(** The [try] block. *)
Definition try_body (fs : FileSystem) (pdf_path : string) : M (list pyval) :=
  doc <- fitz_open fs pdf_path ;;
  n <- lift (doc_len (handle_doc doc)) ;;
  extracted_images <- lift (pages_loop (handle_doc doc) (seq 0 n) []) ;;
  _ <- doc_close doc ;;
  ret extracted_images.

Definition failure_prefix : string := "Failed to extract images: ".

(** [except Exception as e: raise Exception(f"Failed to extract images: {str(e)}")] *)
Definition extract_images_from_pdf (fs : FileSystem) (pdf_path : string)
    : M (list pyval) :=
  fun w => match try_body fs pdf_path w with
           | (Return l, w') => (Return l, w')
           | (Raise e, w') => (Raise (Exn (failure_prefix ++ str_exn e)), w')
           end.

(** ** main *)

(** A line written by [print]: plain text, or [json.dumps(v)], kept as [v].
    The values the script builds are dicts, lists, strings, ints, floats and
    booleans, which [json.dumps] serialises; writing to a stream is taken to
    succeed. *)
Inductive line : Type :=
| TextLine (s : string)
| JsonLine (v : pyval).

Record Outcome : Type := mkOutcome {
  stdout : list line;
  stderr : list line;
  exit_code : Z
}.

Definition usage : string := "Usage: python extract_images.py <pdf_path>".

Definition success_envelope (images : list pyval) : pyval :=
  PyDict [("success", PyBool true);
          ("totalImages", PyInt (Z.of_nat (List.length images)));
          ("images", PyList images)].

Definition failure_envelope (e : exn) : pyval :=
  PyDict [("success", PyBool false); ("error", PyStr (str_exn e))].

(** [sys.exit] raises [SystemExit], which [except Exception] lets through. *)
Definition main (fs : FileSystem) (argv : list string)
    : World -> Outcome * World :=
  fun w =>
    if negb (Nat.eqb (List.length argv) 2) then
      (mkOutcome [] [TextLine usage] 1, w)
    else
      let pdf_path := nth 1 argv "" in
      match extract_images_from_pdf fs pdf_path w with
      | (Return images, w') =>
          (mkOutcome [JsonLine (success_envelope images)] [] 0, w')
      | (Raise e, w') =>
          (mkOutcome [] [JsonLine (failure_envelope e)] 1, w')
      end.

Definition is_json (l : line) : bool :=
  match l with JsonLine _ => true | TextLine _ => false end.

Definition w0 : World := mkWorld 0 [].

(** ** Sample documents *)

Module Samples.

Definition f72 : spec_float := S754_finite false 9 3.
Definition f100 : spec_float := S754_finite false 25 2.
Definition f36 : spec_float := S754_finite false 9 2.

Definition r1 : Rect := mkRect f72 f72 f100 f36.
Definition r2 : Rect := mkRect f100 f36 f100 f36.

Definition man : list byte := [x4d; x61; x6e].

Definition png_image : BaseImage := mkBase (Some man) (Some "png").

Definition usage7 : ImageItem := mkItem 7 [].
Definition usage9 : ImageItem := mkItem 9 [].

(** One page that lists resource 7 twice; the resource is drawn at [r1]
    and at [r2]. *)
Definition page_twice : Page :=
  mkPage (Return [usage7; usage7])
         (fun x => if Z.eqb x 7 then Return [r1; r2] else Return []).

Definition doc_twice : Document :=
  mkDoc (Return 1%nat) (fun _ => Return page_twice) (fun _ => Return png_image).

(** One page with one image that is referenced but drawn nowhere. *)
Definition page_unplaced : Page :=
  mkPage (Return [usage9]) (fun _ => Return []).

Definition doc_unplaced : Document :=
  mkDoc (Return 1%nat) (fun _ => Return page_unplaced) (fun _ => Return png_image).

(** A document that opens, and whose image stream cannot be decoded. *)
Definition doc_broken : Document :=
  mkDoc (Return 1%nat) (fun _ => Return page_unplaced)
        (fun _ => Raise (Exn "bad xref")).

(** Two pages, no image. *)
Definition page_blank : Page := mkPage (Return []) (fun _ => Return []).

Definition doc_blank : Document :=
  mkDoc (Return 2%nat) (fun _ => Return page_blank) (fun _ => Return png_image).

(** Two pages: two images on the first, one on the second. *)
Definition page_one : Page :=
  mkPage (Return [usage9])
         (fun _ => Return [r2]).

Definition doc_mixed : Document :=
  mkDoc (Return 2%nat)
        (fun n => if Nat.eqb n 0 then Return page_twice else Return page_one)
        (fun _ => Return png_image).

Definition fs : FileSystem :=
  fun path =>
    if String.eqb path "twice.pdf" then Return doc_twice
    else if String.eqb path "unplaced.pdf" then Return doc_unplaced
    else if String.eqb path "broken.pdf" then Return doc_broken
    else if String.eqb path "blank.pdf" then Return doc_blank
    else if String.eqb path "mixed.pdf" then Return doc_mixed
    else Raise (Exn ("no such file: '" ++ path ++ "'")).

End Samples.

(** ** Vocabulary of the statements *)

(** [r] is the dict appended for the usage [ii = (image_index, img)]. *)
Definition record_of (doc : Document) (page : Page) (page_num : nat)
    (ii : nat * ImageItem) (r : pyval) : Prop :=
  extract_one doc page page_num (fst ii) (snd ii) = Return r.

(** [recs] are the dicts appended while the outer loop is at [page_num]. *)
Definition page_yields (doc : Document) (page_num : nat) (recs : list pyval)
    : Prop :=
  exists page image_list,
    doc_getitem doc page_num = Return page /\
    get_images page = Return image_list /\
    Forall2 (record_of doc page page_num) (enumerate image_list) recs.

Definition int_field (k : string) (r : pyval) : option Z :=
  match dict_get k r with
  | Some (PyInt z) => Some z
  | _ => None
  end.

Definition page_number (r : pyval) : option Z := int_field "pageNumber" r.
Definition image_index (r : pyval) : option Z := int_field "imageIndex" r.




(** The world after a run that opened a document and closed it again. *)
Definition opened_and_closed (w : World) : World :=
  mkWorld (S (next_id w))
          (filter (fun i => negb (Nat.eqb i (next_id w)))
                  (next_id w :: open_ids w)).

(** The world after a run that opened a document and left it open. *)
Definition opened_only (w : World) : World :=
  mkWorld (S (next_id w)) (next_id w :: open_ids w).

(** [s] occurs in [t]. *)
Definition occurs_in (s t : string) : Prop :=
  exists pre post, t = pre ++ s ++ post.

Definition in_b64_alphabet (c : ascii) : bool :=
  existsb (Ascii.eqb c) b64_alphabet.

(** Every character is one of the 64 of the standard alphabet, or the pad. *)
Fixpoint standard_b64_text (s : string) : bool :=
  match s with
  | EmptyString => true
  | String c rest =>
      (in_b64_alphabet c || Ascii.eqb c b64_pad) && standard_b64_text rest
  end.

(** [r] is the record of position [i] on page [p] (counted from 0). *)
Definition record_at (images : list pyval) (p i : nat) (r : pyval) : Prop :=
  In r images /\
  page_number r = Some (Z.of_nat p + 1) /\
  image_index r = Some (Z.of_nat i).

(** The page lists one resource at the positions [i < j], and the resource
    is drawn at two distinct rectangles, which the lookup returns as
    [ra; rb]. *)
Definition placed_twice (page : Page) (i j : nat) (ra rb : Rect) : Prop :=
  exists il u v,
    get_images page = Return il /\
    (i < j)%nat /\
    nth_error il i = Some u /\
    nth_error il j = Some v /\
    item0 u = item0 v /\
    get_image_rects page (item0 u) = Return [ra; rb] /\
    ra <> rb.

(** The two usages of a resource placed twice give two records with the same
    [format] and [base64], and each usage has a bounding box of its own: the
    two records do not share one. *)
Definition own_bbox_per_usage (fs : FileSystem) (pdf_path : string) (w : World)
    : Prop :=
  forall images w' d P p page i j ra rb,
    extract_images_from_pdf fs pdf_path w = (Return images, w') ->
    fs pdf_path = Return d ->
    doc_len d = Return P ->
    (p < P)%nat ->
    doc_getitem d p = Return page ->
    placed_twice page i j ra rb ->
    exists ri rj,
      record_at images p i ri /\
      record_at images p j rj /\
      dict_get "format" ri = dict_get "format" rj /\
      dict_get "base64" ri = dict_get "base64" rj /\
      dict_get "bbox" ri <> dict_get "bbox" rj.

(** The document has no image: every page is there and lists none. *)
Definition no_images (d : Document) (P : nat) : Prop :=
  doc_len d = Return P /\
  forall p, (p < P)%nat ->
    exists page, doc_getitem d p = Return page /\ get_images page = Return [].

(** ** Which step raised *)

(** Handling one usage raises [e]: the decode does, or a key of its result
    is missing, or the geometry lookup does. *)
Inductive usage_fails (doc : Document) (page : Page) (img : ImageItem)
    : exn -> Prop :=
| decode_fails e :
    extract_image doc (item0 img) = Raise e ->
    usage_fails doc page img e
| image_key_missing bi :
    extract_image doc (item0 img) = Return bi ->
    image bi = None ->
    usage_fails doc page img (Exn "'image'")
| ext_key_missing bi raw :
    extract_image doc (item0 img) = Return bi ->
    image bi = Some raw ->
    ext bi = None ->
    usage_fails doc page img (Exn "'ext'")
| geometry_fails bi raw ex e :
    extract_image doc (item0 img) = Return bi ->
    image bi = Some raw ->
    ext bi = Some ex ->
    get_image_rects page (item0 img) = Raise e ->
    usage_fails doc page img e.

(** The outer loop raises [e] at [page_num]: page access does, or the
    enumeration does, or the first usage that fails does. *)
Inductive page_fails (doc : Document) (page_num : nat) : exn -> Prop :=
| getitem_fails e :
    doc_getitem doc page_num = Raise e ->
    page_fails doc page_num e
| get_images_fails page e :
    doc_getitem doc page_num = Return page ->
    get_images page = Raise e ->
    page_fails doc page_num e
| usage_fails_at page image_list done i img todo recs e :
    doc_getitem doc page_num = Return page ->
    get_images page = Return image_list ->
    enumerate image_list = (done ++ (i, img) :: todo)%list ->
    Forall2 (record_of doc page page_num) done recs ->
    usage_fails doc page img e ->
    page_fails doc page_num e.

(** The [try] block raises [e]: the first step that raises, raises [e]. *)
Inductive extraction_fails (fs : FileSystem) (pdf_path : string)
    : exn -> Prop :=
| open_fails e :
    fs pdf_path = Raise e ->
    extraction_fails fs pdf_path e
| len_fails d e :
    fs pdf_path = Return d ->
    doc_len d = Raise e ->
    extraction_fails fs pdf_path e
| page_fails_at d P p page_recs e :
    fs pdf_path = Return d ->
    doc_len d = Return P ->
    (p < P)%nat ->
    Forall2 (page_yields d) (seq 0 p) page_recs ->
    page_fails d p e ->
    extraction_fails fs pdf_path e.

(** One turn of the outer loop. *)
Definition page_step (doc : Document) (page_num : nat)
    (extracted_images : list pyval) : result (list pyval) :=
  page <~ doc_getitem doc page_num ;;
  image_list <~ get_images page ;;
  images_loop doc page page_num (enumerate image_list) extracted_images.

(** ** Vocabulary of the further properties *)

(** How many usages page [p] lists; 0 when the page or its list cannot be
    had. *)
Definition listed (d : Document) (p : nat) : nat :=
  match doc_getitem d p with
  | Return page =>
      match get_images page with
      | Return il => List.length il
      | Raise _ => 0%nat
      end
  | Raise _ => 0%nat
  end.

(** The usages listed by the pages before [p]. *)
Definition listed_before (d : Document) (p : nat) : nat :=
  list_sum (map (listed d) (seq 0 p)).

(** The keys of a dict, in insertion order. *)
Definition dict_keys (v : pyval) : list string :=
  match v with
  | PyDict kv => map fst kv
  | _ => []
  end.

(** The 64 characters of RFC 4648, table 1, by their codes: [A]-[Z],
    [a]-[z], [0]-[9], [+] and [/]. *)
Definition rfc4648_char (c : ascii) : bool :=
  let n := nat_of_ascii c in
  (Nat.leb 65 n && Nat.leb n 90)
  || (Nat.leb 97 n && Nat.leb n 122)
  || (Nat.leb 48 n && Nat.leb n 57)
  || Nat.eqb n 43
  || Nat.eqb n 47.

(** Every character is one of those 64 or the pad [=]: in particular none
    is a line break, [-] or [_]. *)
Fixpoint rfc4648_text (s : string) : bool :=
  match s with
  | EmptyString => true
  | String c rest =>
      (rfc4648_char c || Nat.eqb (nat_of_ascii c) 61) && rfc4648_text rest
  end.

(** The code of the character that table 1 gives to a value below 64. *)
Definition rfc4648_table (n : nat) : nat :=
  if Nat.ltb n 26 then (65 + n)%nat
  else if Nat.ltb n 52 then (97 + (n - 26))%nat
  else if Nat.ltb n 62 then (48 + (n - 52))%nat
  else if Nat.eqb n 62 then 43%nat
  else 47%nat.

(** One page that lists two different images: a PNG, drawn at [r1], and a
    JPEG, drawn at [r2]. *)
Definition jpeg_bytes : list byte := [xff; xd8].

Definition page_two_images : Page :=
  mkPage (Return [Samples.usage7; Samples.usage9])
         (fun x => if Z.eqb x 7 then Return [Samples.r1]
                   else if Z.eqb x 9 then Return [Samples.r2]
                   else Return []).

Definition doc_two_images : Document :=
  mkDoc (Return 1%nat) (fun _ => Return page_two_images)
        (fun x => if Z.eqb x 7 then Return Samples.png_image
                  else if Z.eqb x 9
                       then Return (mkBase (Some jpeg_bytes) (Some "jpeg"))
                       else Raise (Exn "bad xref")).

Definition fs_two_images : FileSystem :=
  fun path =>
    if String.eqb path "two.pdf" then Return doc_two_images
    else Samples.fs path.

(** A world in which two documents are open already. *)
Definition w_busy : World := mkWorld 3 [2%nat; 0%nat].

(** A document whose decoder answers with a dict that has no [image]. *)
Definition doc_keyless : Document :=
  mkDoc (Return 1%nat) (fun _ => Return Samples.page_unplaced)
        (fun _ => Return (mkBase None (Some "png"))).

Definition fs_keyless : FileSystem :=
  fun path =>
    if String.eqb path "keyless.pdf" then Return doc_keyless
    else Samples.fs path.

Open Scope list_scope.

(** ** Runs on the samples *)

Example b64encode_man : b64encode Samples.man = "TWFu"%string.
Proof. reflexivity. Qed.

Example b64encode_padded :
  b64encode [x4d] = "TQ=="%string /\ b64encode [x4d; x61] = "TWE="%string.
Proof. split; reflexivity. Qed.

Example run_twice :
  main Samples.fs ["extract_images.py"; "twice.pdf"]%string w0 =
  (mkOutcome
     [JsonLine
        (success_envelope
           [image_record 0 0 "png" "TWFu" (rect_bbox Samples.r1);
            image_record 0 1 "png" "TWFu" (rect_bbox Samples.r1)])]
     [] 0,
   mkWorld 1 []).
Proof. reflexivity. Qed.

Example run_broken :
  main Samples.fs ["extract_images.py"; "broken.pdf"]%string w0 =
  (mkOutcome []
     [JsonLine (PyDict [("success", PyBool false);
                        ("error", PyStr "Failed to extract images: bad xref")])]
     1,
   mkWorld 1 [0%nat]).
Proof. reflexivity. Qed.

Example run_without_argument :
  main Samples.fs ["extract_images.py"]%string w0 =
  (mkOutcome [] [TextLine "Usage: python extract_images.py <pdf_path>"] 1, w0).
Proof. reflexivity. Qed.

(** ** The loops *)

Lemma rbind_Return {A B} (r : result A) (k : A -> result B) (b : B) :
  rbind r k = Return b -> exists a, r = Return a /\ k a = Return b.
Proof.
  destruct r as [a|e]; simpl; intros H; [eauto | discriminate].
Qed.

Lemma getitem_key_Return {A} (k : string) (o : option A) (a : A) :
  getitem_key k o = Return a -> o = Some a.
Proof.
  destruct o; simpl; intros H; [congruence | discriminate].
Qed.

Lemma extract_one_inv doc page pn i img r :
  extract_one doc page pn i img = Return r ->
  exists bi raw e rects,
    extract_image doc (item0 img) = Return bi /\
    image bi = Some raw /\
    ext bi = Some e /\
    get_image_rects page (item0 img) = Return rects /\
    r = image_record pn i e (b64encode raw) (bbox_of_rects rects).
Proof.
  unfold extract_one. intros H.
  apply rbind_Return in H as (bi & Hbi & H).
  apply rbind_Return in H as (raw & Hraw & H).
  apply rbind_Return in H as (e & He & H).
  apply rbind_Return in H as (rects & Hrects & H).
  apply getitem_key_Return in Hraw, He.
  exists bi, raw, e, rects. repeat split; auto. congruence.
Qed.

Lemma images_loop_inv doc page pn items :
  forall acc out,
    images_loop doc page pn items acc = Return out ->
    exists recs, out = acc ++ recs /\
                 Forall2 (record_of doc page pn) items recs.
Proof.
  induction items as [|[i img] rest IH]; simpl; intros acc out H.
  - exists []. rewrite app_nil_r. split; [congruence | constructor].
  - apply rbind_Return in H as (r & Hr & H).
    apply IH in H as (recs & -> & Hall).
    exists (r :: recs). rewrite <- app_assoc. split; [reflexivity|].
    constructor; auto.
Qed.

Lemma images_loop_complete doc page pn items recs :
  Forall2 (record_of doc page pn) items recs ->
  forall acc, images_loop doc page pn items acc = Return (acc ++ recs).
Proof.
  induction 1 as [|[i img] r items recs Hr _ IH]; simpl; intros acc.
  - now rewrite app_nil_r.
  - unfold record_of in Hr. simpl in Hr. rewrite Hr. simpl.
    rewrite IH, <- app_assoc. reflexivity.
Qed.

Lemma pages_loop_inv doc pns :
  forall acc out,
    pages_loop doc pns acc = Return out ->
    exists page_recs, out = acc ++ List.concat page_recs /\
                      Forall2 (page_yields doc) pns page_recs.
Proof.
  induction pns as [|pn rest IH]; simpl; intros acc out H.
  - exists []. simpl. rewrite app_nil_r. split; [congruence | constructor].
  - apply rbind_Return in H as (page & Hpage & H).
    apply rbind_Return in H as (il & Hil & H).
    apply rbind_Return in H as (acc' & Hacc' & H).
    apply images_loop_inv in Hacc' as (recs & -> & Hrecs).
    apply IH in H as (page_recs & -> & Hall).
    exists (recs :: page_recs). simpl. rewrite app_assoc. split; [reflexivity|].
    constructor; auto. exists page, il. auto.
Qed.

Lemma pages_loop_complete doc pns page_recs :
  Forall2 (page_yields doc) pns page_recs ->
  forall acc, pages_loop doc pns acc = Return (acc ++ List.concat page_recs).
Proof.
  induction 1 as [|pn recs pns page_recs (page & il & Hp & Hil & Hrecs) _ IH];
    simpl; intros acc.
  - now rewrite app_nil_r.
  - rewrite Hp. simpl. rewrite Hil. simpl.
    rewrite (images_loop_complete _ _ _ _ _ Hrecs). simpl.
    rewrite IH, app_assoc. reflexivity.
Qed.

(** A run of the routine that returns: the document opened, its length was
    read, every page yielded its records, and the document was closed. *)
Lemma extract_Return_inv fs path w images w' :
  extract_images_from_pdf fs path w = (Return images, w') ->
  exists d P page_recs,
    fs path = Return d /\
    doc_len d = Return P /\
    Forall2 (page_yields d) (seq 0 P) page_recs /\
    images = List.concat page_recs /\
    w' = opened_and_closed w.
Proof.
  unfold extract_images_from_pdf, try_body, bind, fitz_open, lift, doc_close, ret.
  destruct (fs path) as [d|e] eqn:Hd; simpl; [|discriminate].
  destruct (doc_len d) as [P|e] eqn:HP; simpl; [|discriminate].
  destruct (pages_loop d (seq 0 P) []) as [out|e] eqn:Hloop; simpl; [|discriminate].
  intros H. injection H as <- <-.
  apply pages_loop_inv in Hloop as (page_recs & -> & Hall).
  exists d, P, page_recs. repeat split; auto.
Qed.

Lemma extract_Return_complete fs path w d P page_recs :
  fs path = Return d ->
  doc_len d = Return P ->
  Forall2 (page_yields d) (seq 0 P) page_recs ->
  extract_images_from_pdf fs path w = (Return (List.concat page_recs), opened_and_closed w).
Proof.
  intros Hd HP Hall.
  unfold extract_images_from_pdf, try_body, bind, fitz_open, lift, doc_close, ret.
  rewrite Hd. simpl. rewrite HP. simpl.
  rewrite (pages_loop_complete _ _ _ Hall). reflexivity.
Qed.

(** ** Runs that raise *)

Lemma extract_one_Raise doc page pn i img e :
  extract_one doc page pn i img = Raise e <-> usage_fails doc page img e.
Proof.
  unfold extract_one. split.
  - destruct (extract_image doc (item0 img)) as [bi|e1] eqn:Hbi; simpl.
    + destruct (image bi) as [raw|] eqn:Hraw; simpl.
      * destruct (ext bi) as [ex|] eqn:Hex; simpl.
        -- destruct (get_image_rects page (item0 img)) as [rects|e1] eqn:Hr;
             simpl; intros H; [discriminate|].
           injection H as <-. eapply geometry_fails; eauto.
        -- intros H. injection H as <-. eapply ext_key_missing; eauto.
      * intros H. injection H as <-. eapply image_key_missing; eauto.
    + intros H. injection H as <-. now apply decode_fails.
  - intros [e1 H|bi H1 H2|bi raw H1 H2 H3|bi raw ex e1 H1 H2 H3 H4].
    + now rewrite H.
    + rewrite H1. simpl. now rewrite H2.
    + rewrite H1. simpl. rewrite H2. simpl. now rewrite H3.
    + rewrite H1. simpl. rewrite H2. simpl. rewrite H3. simpl. now rewrite H4.
Qed.

Lemma usage_fails_Raise doc page img e :
  usage_fails doc page img e ->
  forall pn i, extract_one doc page pn i img = Raise e.
Proof.
  intros H pn i. now apply extract_one_Raise.
Qed.

Lemma images_loop_Raise doc page pn items :
  forall acc e,
    images_loop doc page pn items acc = Raise e <->
    exists done i img todo recs,
      items = done ++ (i, img) :: todo /\
      Forall2 (record_of doc page pn) done recs /\
      usage_fails doc page img e.
Proof.
  induction items as [|[i img] rest IH]; simpl; intros acc e.
  - split; [discriminate|].
    intros (done & i & img & todo & recs & H & _). now destruct done.
  - destruct (extract_one doc page pn i img) as [r|e1] eqn:Hone; simpl.
    + rewrite IH. split.
      * intros (done & j & img' & todo & recs & -> & Hdone & Hf).
        exists ((i, img) :: done), j, img', todo, (r :: recs).
        split; [reflexivity|]. split; [now constructor | assumption].
      * intros (done & j & img' & todo & recs & Heq & Hdone & Hf).
        destruct done as [|x done]; simpl in Heq; inversion Heq; subst.
        -- rewrite (usage_fails_Raise _ _ _ _ Hf) in Hone. discriminate.
        -- inversion Hdone; subst.
           exists done, j, img', todo, l'. auto.
    + split.
      * intros H. injection H as <-.
        exists [], i, img, rest, [].
        split; [reflexivity|]. split; [constructor|].
        now apply extract_one_Raise in Hone.
      * intros (done & j & img' & todo & recs & Heq & Hdone & Hf).
        destruct done as [|x done]; simpl in Heq; inversion Heq; subst.
        -- rewrite (usage_fails_Raise _ _ _ _ Hf) in Hone. congruence.
        -- inversion Hdone; subst. unfold record_of in *. simpl in *. congruence.
Qed.

Lemma pages_loop_cons doc pn rest acc :
  pages_loop doc (pn :: rest) acc =
  rbind (page_step doc pn acc) (pages_loop doc rest).
Proof.
  unfold page_step. simpl.
  destruct (doc_getitem doc pn) as [page|e]; simpl; [|reflexivity].
  destruct (get_images page) as [il|e]; reflexivity.
Qed.

Lemma page_step_Return doc pn acc out :
  page_step doc pn acc = Return out <->
  exists recs, out = acc ++ recs /\ page_yields doc pn recs.
Proof.
  unfold page_step, page_yields. split.
  - intros H.
    apply rbind_Return in H as (page & Hp & H).
    apply rbind_Return in H as (il & Hil & H).
    apply images_loop_inv in H as (recs & -> & Hrecs).
    exists recs. split; [reflexivity|]. exists page, il. auto.
  - intros (recs & -> & page & il & Hp & Hil & Hrecs).
    rewrite Hp. simpl. rewrite Hil. simpl.
    now apply images_loop_complete.
Qed.

Lemma page_step_Raise doc pn acc e :
  page_step doc pn acc = Raise e <-> page_fails doc pn e.
Proof.
  unfold page_step. split.
  - destruct (doc_getitem doc pn) as [page|e1] eqn:Hp; simpl.
    + destruct (get_images page) as [il|e1] eqn:Hil; simpl.
      * intros H. apply images_loop_Raise in H
          as (done & i & img & todo & recs & Heq & Hdone & Hf).
        eapply usage_fails_at; eauto.
      * intros H. injection H as <-. eapply get_images_fails; eauto.
    + intros H. injection H as <-. now apply getitem_fails.
  - intros [e1 Hp|page e1 Hp Hil|page il done i img todo recs e1 Hp Hil Heq Hdone Hf].
    + now rewrite Hp.
    + rewrite Hp. simpl. now rewrite Hil.
    + rewrite Hp. simpl. rewrite Hil. simpl.
      apply images_loop_Raise. eauto 8.
Qed.

Lemma pages_loop_Raise doc pns :
  forall acc e,
    pages_loop doc pns acc = Raise e <->
    exists done p todo page_recs,
      pns = done ++ p :: todo /\
      Forall2 (page_yields doc) done page_recs /\
      page_fails doc p e.
Proof.
  induction pns as [|pn rest IH]; intros acc e.
  - simpl. split; [discriminate|].
    intros (done & p & todo & page_recs & H & _). now destruct done.
  - rewrite pages_loop_cons.
    destruct (page_step doc pn acc) as [acc'|e1] eqn:Hstep; simpl.
    + apply page_step_Return in Hstep as (recs & -> & Hy).
      rewrite IH. split.
      * intros (done & p & todo & page_recs & -> & Hdone & Hf).
        exists (pn :: done), p, todo, (recs :: page_recs).
        split; [reflexivity|]. split; [now constructor | assumption].
      * intros (done & p & todo & page_recs & Heq & Hdone & Hf).
        destruct done as [|x done]; simpl in Heq; inversion Heq; subst.
        -- apply (page_step_Raise doc p acc) in Hf.
           assert (Hr : page_step doc p acc = Return (acc ++ recs))
             by (apply page_step_Return; eauto).
           congruence.
        -- inversion Hdone; subst. exists done, p, todo, l'. auto.
    + apply page_step_Raise in Hstep. split.
      * intros H. injection H as <-.
        exists [], pn, rest, [].
        split; [reflexivity|]. split; [constructor | assumption].
      * intros (done & p & todo & page_recs & Heq & Hdone & Hf).
        destruct done as [|x done]; simpl in Heq; inversion Heq; subst.
        -- apply (page_step_Raise doc p acc) in Hf, Hstep. congruence.
        -- inversion Hdone; subst.
           apply (page_step_Raise doc x acc) in Hstep.
           assert (Hr : page_step doc x acc = Return (acc ++ y))
             by (apply page_step_Return; eauto).
           congruence.
Qed.

Lemma seq_split_at p P :
  (p < P)%nat -> seq 0 P = seq 0 p ++ p :: seq (S p) (P - S p).
Proof.
  intros H. replace P with (p + S (P - S p))%nat at 1 by lia.
  rewrite seq_app. reflexivity.
Qed.

Lemma seq_split_inv done p todo :
  forall s P, seq s P = done ++ p :: todo ->
              done = seq s (p - s) /\ (s <= p < s + P)%nat.
Proof.
  induction done as [|x done IH]; intros s P H.
  - destruct P as [|P]; simpl in H; [discriminate|]. injection H as <- _.
    rewrite Nat.sub_diag. split; [reflexivity | lia].
  - destruct P as [|P]; simpl in H; [discriminate|]. injection H as <- H.
    apply IH in H as (-> & Hb).
    replace (p - s)%nat with (S (p - S s)) by lia. split; [reflexivity | lia].
Qed.

(** The [try] block raises exactly when some step does, with that step's
    exception; the document is left open unless [fitz.open] itself raised. *)
Lemma try_body_Raise fs path w e w' :
  try_body fs path w = (Raise e, w') <->
  extraction_fails fs path e /\
  w' = match fs path with Raise _ => w | Return _ => opened_only w end.
Proof.
  unfold try_body, bind, fitz_open, lift, doc_close, ret. split.
  - destruct (fs path) as [d|e1] eqn:Hd; simpl.
    + destruct (doc_len d) as [P|e1] eqn:HP; simpl.
      * destruct (pages_loop d (seq 0 P) []) as [out|e1] eqn:Hloop; simpl;
          [discriminate|].
        intros H. injection H as <- <-. split; [|reflexivity].
        apply pages_loop_Raise in Hloop
          as (done & p & todo & page_recs & Heq & Hdone & Hf).
        apply seq_split_inv in Heq as (-> & Hb).
        rewrite Nat.sub_0_r in Hdone.
        eapply page_fails_at; eauto. lia.
      * intros H. injection H as <- <-. split; [|reflexivity].
        eapply len_fails; eauto.
    + intros H. injection H as <- <-. split; [|reflexivity].
      now apply open_fails.
  - intros ([e1 Hd|d e1 Hd HP|d P p page_recs e1 Hd HP Hp Hdone Hf] & ->);
      rewrite Hd; simpl.
    + reflexivity.
    + rewrite HP. reflexivity.
    + rewrite HP. simpl.
      assert (Hloop : pages_loop d (seq 0 P) [] = Raise e1).
      { apply pages_loop_Raise.
        exists (seq 0 p), p, (seq (S p) (P - S p)), page_recs.
        split; [now apply seq_split_at | auto]. }
      rewrite Hloop. reflexivity.
Qed.

(** ** The wrapper and the adapter *)

Lemma occurs_in_suffix (pre s : string) : occurs_in s (pre ++ s)%string.
Proof.
  exists pre, EmptyString.
  assert (H : forall t : string, (t ++ "")%string = t)
    by (induction t as [|c t IHt]; simpl; [reflexivity | now rewrite IHt]).
  now rewrite H.
Qed.

Lemma extract_Raise fs path w e :
  extraction_fails fs path e ->
  extract_images_from_pdf fs path w =
  (Raise (Exn (failure_prefix ++ str_exn e)),
   match fs path with Raise _ => w | Return _ => opened_only w end).
Proof.
  intros H. unfold extract_images_from_pdf.
  assert (Hb := proj2 (try_body_Raise fs path w e _) (conj H eq_refl)).
  now rewrite Hb.
Qed.

(** The routine returns or raises, and it raises only for a failing step. *)
Lemma extract_Raise_inv fs path w e w' :
  extract_images_from_pdf fs path w = (Raise e, w') ->
  exists e0, extraction_fails fs path e0 /\
             e = Exn (failure_prefix ++ str_exn e0).
Proof.
  unfold extract_images_from_pdf.
  destruct (try_body fs path w) as [[l|e0] w1] eqn:Hb; [discriminate|].
  intros H. injection H as <- <-.
  apply try_body_Raise in Hb as [Hf _]. eauto.
Qed.

Lemma is_open_opened_only w : is_open (next_id w) (opened_only w) = true.
Proof.
  unfold is_open, opened_only. simpl. now rewrite Nat.eqb_refl.
Qed.

Lemma is_open_opened_and_closed w :
  is_open (next_id w) (opened_and_closed w) = false.
Proof.
  unfold is_open, opened_and_closed. simpl. rewrite Nat.eqb_refl. simpl.
  induction (open_ids w) as [|i l IH]; simpl; [reflexivity|].
  destruct (Nat.eqb i (next_id w)) eqn:E; simpl; [assumption|].
  rewrite Nat.eqb_sym, E. assumption.
Qed.

(** On the path that returns, the document is closed. *)
Lemma closed_on_return fs path w images w' :
  extract_images_from_pdf fs path w = (Return images, w') ->
  is_open (next_id w) w' = false.
Proof.
  intros H. apply extract_Return_inv in H as (d & P & prs & _ & _ & _ & _ & ->).
  apply is_open_opened_and_closed.
Qed.

(** C1 (as the code has it): when [fitz.open] succeeded and a later step
    raises, the routine raises with the document handle still open:
    [doc.close()] is reached on the returning path only. *)
Theorem close_skipped_on_error fs path w d e w' :
  fs path = Return d ->
  extract_images_from_pdf fs path w = (Raise e, w') ->
  w' = opened_only w /\ is_open (next_id w) w' = true.
Proof.
  intros Hd H.
  destruct (extract_Raise_inv _ _ _ _ _ H) as (e0 & Hf & ->).
  rewrite (extract_Raise _ _ w _ Hf), Hd in H. injection H as <-.
  split; [reflexivity | apply is_open_opened_only].
Qed.

Lemma close_skipped_on_error_witness :
  extract_images_from_pdf Samples.fs "broken.pdf" w0 =
    (Raise (Exn "Failed to extract images: bad xref"), mkWorld 1 [0%nat]) /\
  is_open 0 (mkWorld 1 [0%nat]) = true.
Proof.
  split; [reflexivity|].
  exact (proj2 (close_skipped_on_error Samples.fs "broken.pdf" w0
                  Samples.doc_broken (Exn "Failed to extract images: bad xref")
                  (mkWorld 1 [0%nat]) eq_refl eq_refl)).
Defined.

(** C2: whenever a step of the [try] block raises (open, page access or
    enumeration, decode, geometry lookup), with exception [e], the routine
    raises one exception whose message is the prefix followed by [str(e)],
    so the original message occurs in it, and it returns no list. *)
Theorem extraction_all_or_nothing fs path w e :
  extraction_fails fs path e ->
  exists w',
    extract_images_from_pdf fs path w =
      (Raise (Exn (failure_prefix ++ str_exn e)), w') /\
    occurs_in (str_exn e) (failure_prefix ++ str_exn e)%string /\
    forall images w'',
      extract_images_from_pdf fs path w <> (Return images, w'').
Proof.
  intros H. eexists. split; [now apply extract_Raise|].
  split; [apply occurs_in_suffix|].
  intros images w''. rewrite (extract_Raise _ _ w _ H). discriminate.
Qed.

Lemma broken_pdf_fails :
  extraction_fails Samples.fs "broken.pdf" (Exn "bad xref").
Proof.
  apply (page_fails_at Samples.fs "broken.pdf" Samples.doc_broken 1 0 []);
    [reflexivity | reflexivity | lia | constructor |].
  apply (usage_fails_at Samples.doc_broken 0 Samples.page_unplaced
           [Samples.usage9] [] 0 Samples.usage9 [] []);
    [reflexivity | reflexivity | reflexivity | constructor |].
  apply decode_fails. reflexivity.
Qed.

Lemma extraction_all_or_nothing_witness :
  exists w',
    extract_images_from_pdf Samples.fs "broken.pdf" w0 =
      (Raise (Exn "Failed to extract images: bad xref"), w') /\
    occurs_in "bad xref" "Failed to extract images: bad xref" /\
    forall images w'',
      extract_images_from_pdf Samples.fs "broken.pdf" w0 <> (Return images, w'').
Proof.
  exact (extraction_all_or_nothing Samples.fs "broken.pdf" w0 (Exn "bad xref")
           broken_pdf_fails).
Defined.

(** ** main *)

Lemma main_one_argument fs prog path w :
  main fs [prog; path] w =
  match extract_images_from_pdf fs path w with
  | (Return images, w') =>
      (mkOutcome [JsonLine (success_envelope images)] [] 0, w')
  | (Raise e, w') =>
      (mkOutcome [] [JsonLine (failure_envelope e)] 1, w')
  end.
Proof. reflexivity. Qed.

(** C5: with one positional argument the run ends in exactly one of two
    ways.  Either the extraction returned [images]: the only line written is
    the JSON object with [success] true, [totalImages] the length of
    [images], and [images], on standard output, and the exit code is 0.  Or
    a step of the extraction raised: the only line written is the JSON
    object with [success] false and [error] the message of the routine's
    exception, on standard error, and the exit code is 1. *)
Theorem main_success_xor_failure fs prog path w :
  exists out w',
    main fs [prog; path] w = (out, w') /\
    ((exists images,
        extract_images_from_pdf fs path w = (Return images, w') /\
        stdout out =
          [JsonLine (PyDict [("success", PyBool true);
                             ("totalImages", PyInt (Z.of_nat (List.length images)));
                             ("images", PyList images)])] /\
        stderr out = [] /\
        exit_code out = 0)
     \/
     (exists e0,
        extraction_fails fs path e0 /\
        extract_images_from_pdf fs path w =
          (Raise (Exn ("Failed to extract images: " ++ str_exn e0)%string), w') /\
        stderr out =
          [JsonLine (PyDict [("success", PyBool false);
                             ("error",
                              PyStr ("Failed to extract images: "
                                     ++ str_exn e0)%string)])] /\
        stdout out = [] /\
        exit_code out = 1)) /\
    (exit_code out = 0 -> stderr out = []) /\
    (exit_code out = 1 -> stdout out = []).
Proof.
  rewrite main_one_argument.
  destruct (extract_images_from_pdf fs path w) as [[images|e] w'] eqn:He.
  - do 2 eexists. split; [reflexivity|].
    split; [|split; simpl; [auto | discriminate]].
    left. exists images. simpl. auto.
  - destruct (extract_Raise_inv _ _ _ _ _ He) as (e0 & Hf & ->).
    do 2 eexists. split; [reflexivity|].
    split; [|split; simpl; [discriminate | auto]].
    right. exists e0. simpl. auto.
Qed.

Lemma no_images_yields d P :
  no_images d P ->
  forall s n, (s + n <= P)%nat ->
    Forall2 (page_yields d) (seq s n) (repeat [] n).
Proof.
  intros [_ H] s n. revert s.
  induction n as [|n IH]; intros s Hb; simpl; constructor.
  - destruct (H s) as (page & Hp & Hil); [lia|].
    exists page, []. split; [exact Hp|]. split; [exact Hil | constructor].
  - apply IH. lia.
Qed.

Lemma concat_repeat_nil {A} n : List.concat (repeat (@nil A) n) = [].
Proof. induction n; simpl; auto. Qed.

Lemma no_images_extract fs path w d P :
  fs path = Return d ->
  no_images d P ->
  extract_images_from_pdf fs path w = (Return [], opened_and_closed w).
Proof.
  intros Hd Hno.
  rewrite (extract_Return_complete fs path w d P (repeat [] P) Hd (proj1 Hno)).
  - now rewrite concat_repeat_nil.
  - apply (no_images_yields d P Hno 0 P). lia.
Qed.

(** C7: whenever [main] exits with code 0, the line on standard output is
    the success envelope of some list [images], and its [totalImages] is the
    length of that list; for a document without images the line is the
    envelope with [totalImages] 0 and the empty list, and the exit code is 0. *)
Theorem total_images_is_length fs prog path w :
  (forall out w',
      main fs [prog; path] w = (out, w') ->
      exit_code out = 0 ->
      exists images,
        stdout out =
          [JsonLine (PyDict [("success", PyBool true);
                             ("totalImages", PyInt (Z.of_nat (List.length images)));
                             ("images", PyList images)])] /\
        extract_images_from_pdf fs path w = (Return images, w')) /\
  (forall d P,
      fs path = Return d ->
      no_images d P ->
      main fs [prog; path] w =
        (mkOutcome [JsonLine (PyDict [("success", PyBool true);
                                      ("totalImages", PyInt 0);
                                      ("images", PyList [])])] [] 0,
         opened_and_closed w)).
Proof.
  split.
  - intros out w'. rewrite main_one_argument.
    destruct (extract_images_from_pdf fs path w) as [[images|e] w1];
      intros H; injection H as <- <-; simpl; intros Hc; [|discriminate].
    exists images. split; reflexivity.
  - intros d P Hd Hno. rewrite main_one_argument.
    now rewrite (no_images_extract fs path w d P Hd Hno).
Qed.

Lemma blank_pdf_no_images : no_images Samples.doc_blank 2.
Proof.
  split; [reflexivity|]. intros p _. exists Samples.page_blank. split; reflexivity.
Qed.

Lemma total_images_is_length_witness :
  (exists images,
      stdout (fst (main Samples.fs ["extract_images.py"; "mixed.pdf"] w0)) =
        [JsonLine (PyDict [("success", PyBool true);
                           ("totalImages", PyInt (Z.of_nat (List.length images)));
                           ("images", PyList images)])] /\
      List.length images = 3%nat) /\
  main Samples.fs ["extract_images.py"; "blank.pdf"] w0 =
    (mkOutcome [JsonLine (PyDict [("success", PyBool true);
                                  ("totalImages", PyInt 0);
                                  ("images", PyList [])])] [] 0,
     opened_and_closed w0).
Proof.
  split.
  - destruct (proj1 (total_images_is_length Samples.fs "extract_images.py"
                       "mixed.pdf" w0) _ _ eq_refl eq_refl)
      as (images & Hout & Hex).
    exists images. split; [exact Hout|].
    vm_compute in Hex. injection Hex as <-. reflexivity.
  - exact (proj2 (total_images_is_length Samples.fs "extract_images.py"
                    "blank.pdf" w0) Samples.doc_blank 2%nat eq_refl
                 blank_pdf_no_images).
Defined.

(** C8: when the argument vector does not hold exactly the program name and
    one argument, the usage text is the only line on standard error, nothing
    is written to standard output, no line on either stream is JSON, the exit
    code is 1, and the PDF library is not consulted: the outcome does not
    depend on the file system and no document is opened. *)
Theorem usage_error fs argv w :
  List.length argv <> 2%nat ->
  main fs argv w = (mkOutcome [] [TextLine usage] 1, w) /\
  existsb is_json (stdout (fst (main fs argv w))) = false /\
  existsb is_json (stderr (fst (main fs argv w))) = false /\
  forall fs', main fs' argv w = main fs argv w.
Proof.
  intros H. apply Nat.eqb_neq in H.
  assert (E : forall f, main f argv w = (mkOutcome [] [TextLine usage] 1, w))
    by (intros f; unfold main; now rewrite H).
  rewrite E. repeat split; try reflexivity. intros fs'. apply E.
Qed.

Lemma usage_error_witness :
  main Samples.fs ["extract_images.py"; "a.pdf"; "b.pdf"] w0 =
    (mkOutcome [] [TextLine usage] 1, w0) /\
  main Samples.fs ["extract_images.py"] w0 =
    (mkOutcome [] [TextLine usage] 1, w0).
Proof.
  split.
  - apply (usage_error Samples.fs ["extract_images.py"; "a.pdf"; "b.pdf"] w0).
    simpl. lia.
  - apply (usage_error Samples.fs ["extract_images.py"] w0). simpl. lia.
Defined.

(** C10: when a step of the extraction raises [e], the [error] field of the
    failure envelope written by [main] is the prefix
    [Failed to extract images: ] followed by [str(e)], and nothing else: the
    adapter passes the routine's message on as it is. *)
Theorem failure_message_prefixed_once fs prog path w e :
  extraction_fails fs path e ->
  exists w',
    main fs [prog; path] w =
      (mkOutcome []
         [JsonLine (PyDict [("success", PyBool false);
                            ("error",
                             PyStr ("Failed to extract images: " ++ str_exn e)%string)])]
         1, w').
Proof.
  intros H. rewrite main_one_argument, (extract_Raise _ _ w _ H).
  eexists. reflexivity.
Qed.

Lemma missing_pdf_fails :
  extraction_fails Samples.fs "missing.pdf" (Exn "no such file: 'missing.pdf'").
Proof. apply open_fails. reflexivity. Qed.

Lemma failure_message_prefixed_once_witness :
  exists w',
    main Samples.fs ["extract_images.py"; "missing.pdf"] w0 =
      (mkOutcome []
         [JsonLine (PyDict [("success", PyBool false);
                            ("error",
                             PyStr "Failed to extract images: no such file: 'missing.pdf'")])]
         1, w').
Proof.
  exact (failure_message_prefixed_once Samples.fs "extract_images.py"
           "missing.pdf" w0 (Exn "no such file: 'missing.pdf'")
           missing_pdf_fails).
Defined.

(** ** Where a record comes from *)

Lemma enumerate_from_nth {A} (l : list A) :
  forall s i a,
    nth_error l i = Some a ->
    nth_error (combine (seq s (List.length l)) l) i = Some ((s + i)%nat, a).
Proof.
  induction l as [|x l IH]; intros s [|i] a H; simpl in *; try discriminate.
  - injection H as ->. now rewrite Nat.add_0_r.
  - rewrite (IH (S s) i a H). f_equal. f_equal. lia.
Qed.

Lemma enumerate_nth {A} (l : list A) i a :
  nth_error l i = Some a -> nth_error (enumerate l) i = Some (i, a).
Proof.
  intros H. unfold enumerate. now rewrite (enumerate_from_nth l 0 i a H).
Qed.

Lemma enumerate_from_nth_inv {A} (l : list A) :
  forall s i j a,
    nth_error (combine (seq s (List.length l)) l) i = Some (j, a) ->
    j = (s + i)%nat /\ nth_error l i = Some a.
Proof.
  induction l as [|x l IH]; intros s [|i] j a H; simpl in *; try discriminate.
  - injection H as <- <-. split; [lia | reflexivity].
  - apply IH in H as [-> H]. split; [lia | assumption].
Qed.

Lemma enumerate_nth_inv {A} (l : list A) i j a :
  nth_error (enumerate l) i = Some (j, a) -> j = i /\ nth_error l i = Some a.
Proof.
  intros H. apply enumerate_from_nth_inv in H. exact H.
Qed.

Lemma Forall2_nth_l {A B} (R : A -> B -> Prop) l l' :
  Forall2 R l l' ->
  forall i a, nth_error l i = Some a ->
              exists b, nth_error l' i = Some b /\ R a b.
Proof.
  induction 1 as [|x y l l' Hxy _ IH]; intros [|i] a Ha; simpl in *;
    try discriminate.
  - injection Ha as <-. eauto.
  - eauto.
Qed.

Lemma Forall2_nth_r {A B} (R : A -> B -> Prop) l l' :
  Forall2 R l l' ->
  forall i b, nth_error l' i = Some b ->
              exists a, nth_error l i = Some a /\ R a b.
Proof.
  induction 1 as [|x y l l' Hxy _ IH]; intros [|i] b Hb; simpl in *;
    try discriminate.
  - injection Hb as <-. eauto.
  - eauto.
Qed.

Lemma page_yields_fun d p page il recs :
  doc_getitem d p = Return page ->
  get_images page = Return il ->
  page_yields d p recs ->
  Forall2 (record_of d page p) (enumerate il) recs.
Proof.
  intros Hp Hil (page' & il' & Hp' & Hil' & H).
  rewrite Hp in Hp'. injection Hp' as <-.
  rewrite Hil in Hil'. injection Hil' as <-. exact H.
Qed.

(** The records of page [p] are in the output. *)
Lemma page_recs_nth d P page_recs p :
  Forall2 (page_yields d) (seq 0 P) page_recs ->
  (p < P)%nat ->
  exists recs, nth_error page_recs p = Some recs /\ page_yields d p recs.
Proof.
  intros H Hp.
  apply (Forall2_nth_l _ _ _ H p p).
  rewrite nth_error_seq. apply Nat.ltb_lt in Hp. now rewrite Hp.
Qed.

(** The usage at position [i] of page [p] has its record in the output, with
    the fields the loop body computes. *)
Lemma usage_has_record fs path w images w' d P p page il i u :
  extract_images_from_pdf fs path w = (Return images, w') ->
  fs path = Return d ->
  doc_len d = Return P ->
  (p < P)%nat ->
  doc_getitem d p = Return page ->
  get_images page = Return il ->
  nth_error il i = Some u ->
  exists bi raw e rects,
    extract_image d (item0 u) = Return bi /\
    image bi = Some raw /\
    ext bi = Some e /\
    get_image_rects page (item0 u) = Return rects /\
    In (image_record p i e (b64encode raw) (bbox_of_rects rects)) images.
Proof.
  intros H Hd HP Hlt Hpage Hil Hu.
  apply extract_Return_inv in H as (d' & P' & page_recs & Hd' & HP' & Hall & -> & _).
  rewrite Hd in Hd'. injection Hd' as <-.
  rewrite HP in HP'. injection HP' as <-.
  destruct (page_recs_nth _ _ _ _ Hall Hlt) as (recs & Hrecs & Hy).
  pose proof (page_yields_fun _ _ _ _ _ Hpage Hil Hy) as Hf.
  destruct (Forall2_nth_l _ _ _ Hf i (i, u) (enumerate_nth il i u Hu))
    as (r & Hr & Hrec).
  unfold record_of in Hrec. simpl in Hrec.
  apply extract_one_inv in Hrec as (bi & raw & e & rects & H1 & H2 & H3 & H4 & ->).
  exists bi, raw, e, rects. repeat split; auto.
  apply in_concat. exists recs. split; eapply nth_error_In; eauto.
Qed.

(** Every record of the output is the record of one usage on one page. *)
Lemma record_has_usage fs path w images w' r :
  extract_images_from_pdf fs path w = (Return images, w') ->
  In r images ->
  exists d P p page il i u bi raw e rects,
    fs path = Return d /\
    doc_len d = Return P /\
    (p < P)%nat /\
    doc_getitem d p = Return page /\
    get_images page = Return il /\
    nth_error il i = Some u /\
    extract_image d (item0 u) = Return bi /\
    image bi = Some raw /\
    ext bi = Some e /\
    get_image_rects page (item0 u) = Return rects /\
    r = image_record p i e (b64encode raw) (bbox_of_rects rects).
Proof.
  intros H Hin.
  apply extract_Return_inv in H as (d & P & page_recs & Hd & HP & Hall & -> & _).
  apply in_concat in Hin as (recs & Hrecs & Hin).
  apply In_nth_error in Hrecs as (p & Hp).
  destruct (Forall2_nth_r _ _ _ Hall p recs Hp) as (p' & Hp' & Hy).
  rewrite nth_error_seq in Hp'.
  destruct (Nat.ltb p P) eqn:Hlt; [|discriminate].
  injection Hp' as <-. simpl in Hy. apply Nat.ltb_lt in Hlt.
  destruct Hy as (page & il & Hpage & Hil & Hf).
  apply In_nth_error in Hin as (i & Hi).
  destruct (Forall2_nth_r _ _ _ Hf i r Hi) as ([j u] & Hju & Hrec).
  apply enumerate_nth_inv in Hju as [-> Hu].
  unfold record_of in Hrec. simpl in Hrec.
  apply extract_one_inv in Hrec as (bi & raw & e & rects & H1 & H2 & H3 & H4 & ->).
  exists d, P, p, page, il, i, u, bi, raw, e, rects. repeat split; auto.
Qed.

(** ** base64 *)

Lemma b64_char_facts k :
  (k < 64)%nat ->
  b64_index (b64_char (N.of_nat k)) = Some (N.of_nat k) /\
  Ascii.eqb (b64_char (N.of_nat k)) b64_pad = false /\
  in_b64_alphabet (b64_char (N.of_nat k)) = true.
Proof.
  intros H.
  do 64 (destruct k as [|k]; [repeat split; reflexivity|]).
  lia.
Qed.

Lemma b64_char_ok n :
  (n < 64)%N ->
  b64_index (b64_char n) = Some n /\
  Ascii.eqb (b64_char n) b64_pad = false /\
  in_b64_alphabet (b64_char n) = true.
Proof.
  intros H. rewrite <- (N2Nat.id n). apply b64_char_facts. lia.
Qed.

Lemma byte_bound (b : byte) : (Byte.to_N b < 256)%N.
Proof. pose proof (Byte.to_N_bounded b). lia. Qed.

(** Division and remainder by a constant, handed to [lia]. *)
Ltac euclid := zify; Z.to_euclidean_division_equations; lia.

Section Groups.

Variables a b c : N.
Hypothesis Ha : (a < 256)%N.
Hypothesis Hb : (b < 256)%N.
Hypothesis Hc : (c < 256)%N.

Lemma sextet1_bound : (sextet1 a < 64)%N.
Proof using Ha. clear b c Hb Hc. unfold sextet1. euclid. Qed.

Lemma sextet2_bound : (sextet2 a b < 64)%N.
Proof using Hb. clear c Ha Hc. unfold sextet2. euclid. Qed.

Lemma sextet3_bound : (sextet3 b c < 64)%N.
Proof using Hc. clear a Ha Hb. unfold sextet3. euclid. Qed.

Lemma sextet4_bound : (sextet4 c < 64)%N.
Proof using Type. clear a b Ha Hb Hc. unfold sextet4. euclid. Qed.

Lemma octet1_sextets : octet1 (sextet1 a) (sextet2 a b) = a.
Proof using Ha Hb. clear c Hc. unfold octet1, sextet1, sextet2. euclid. Qed.

Lemma octet2_sextets : octet2 (sextet2 a b) (sextet3 b c) = b.
Proof using Hb Hc. clear Ha. unfold octet2, sextet2, sextet3. euclid. Qed.

Lemma octet3_sextets : octet3 (sextet3 b c) (sextet4 c) = c.
Proof using Hc. clear a Ha Hb. unfold octet3, sextet3, sextet4. euclid. Qed.

End Groups.

Lemma cons_byte_to_N (x : byte) (r : option (list byte)) (l : list byte) :
  r = Some l -> cons_byte (Byte.to_N x) r = Some (x :: l).
Proof.
  intros ->. unfold cons_byte. now rewrite Byte.of_to_N.
Qed.

Lemma b64decode_group c1 c2 c3 c4 rest :
  b64decode (String c1 (String c2 (String c3 (String c4 rest)))) =
  match b64_index c1, b64_index c2 with
  | Some s1, Some s2 =>
      if Ascii.eqb c4 b64_pad then
        match rest with
        | EmptyString =>
            if Ascii.eqb c3 b64_pad then cons_byte (octet1 s1 s2) (Some [])
            else match b64_index c3 with
                 | Some s3 =>
                     cons_byte (octet1 s1 s2)
                       (cons_byte (octet2 s2 s3) (Some []))
                 | None => None
                 end
        | _ => None
        end
      else
        match b64_index c3, b64_index c4 with
        | Some s3, Some s4 =>
            cons_byte (octet1 s1 s2)
              (cons_byte (octet2 s2 s3)
                 (cons_byte (octet3 s3 s4) (b64decode rest)))
        | _, _ => None
        end
  | _, _ => None
  end.
Proof. reflexivity. Qed.

Lemma list_ind3 {A} (P : list A -> Prop) :
  P [] ->
  (forall x, P [x]) ->
  (forall x y, P [x; y]) ->
  (forall x y z l, P l -> P (x :: y :: z :: l)) ->
  forall l, P l.
Proof.
  intros H0 H1 H2 H3 l.
  assert (H : forall n l, (List.length l <= n)%nat -> P l).
  { induction n as [|n IH]; intros [|x [|y [|z t]]] Hl; simpl in Hl; auto;
      try lia.
    apply H3, IH. lia. }
  apply (H (List.length l)). lia.
Qed.

Lemma b64encode_one x :
  b64encode [x] =
  String (b64_char (sextet1 (Byte.to_N x)))
    (String (b64_char (sextet2 (Byte.to_N x) 0))
       (String b64_pad (String b64_pad EmptyString))).
Proof. reflexivity. Qed.

Lemma b64encode_two x y :
  b64encode [x; y] =
  String (b64_char (sextet1 (Byte.to_N x)))
    (String (b64_char (sextet2 (Byte.to_N x) (Byte.to_N y)))
       (String (b64_char (sextet3 (Byte.to_N y) 0))
          (String b64_pad EmptyString))).
Proof. reflexivity. Qed.

Lemma b64encode_three x y z l :
  b64encode (x :: y :: z :: l) =
  String (b64_char (sextet1 (Byte.to_N x)))
    (String (b64_char (sextet2 (Byte.to_N x) (Byte.to_N y)))
       (String (b64_char (sextet3 (Byte.to_N y) (Byte.to_N z)))
          (String (b64_char (sextet4 (Byte.to_N z))) (b64encode l)))).
Proof. reflexivity. Qed.

Lemma zero_bound : (0 < 256)%N.
Proof. lia. Qed.

(** Decoding what [b64encode] wrote gives the bytes back. *)
Lemma b64decode_b64encode (bs : list byte) :
  b64decode (b64encode bs) = Some bs.
Proof.
  induction bs as [|x|x y|x y z l IH] using list_ind3.
  - reflexivity.
  - pose proof (byte_bound x) as Hx.
    rewrite b64encode_one, b64decode_group.
    destruct (b64_char_ok _ (sextet1_bound _ Hx)) as (-> & _ & _).
    destruct (b64_char_ok _ (sextet2_bound (Byte.to_N x) 0 zero_bound)) as (-> & _ & _).
    rewrite Ascii.eqb_refl.
    rewrite (octet1_sextets _ 0 Hx zero_bound).
    now apply cons_byte_to_N.
  - pose proof (byte_bound x) as Hx. pose proof (byte_bound y) as Hy.
    rewrite b64encode_two, b64decode_group.
    destruct (b64_char_ok _ (sextet1_bound _ Hx)) as (-> & _ & _).
    destruct (b64_char_ok _ (sextet2_bound (Byte.to_N x) _ Hy)) as (-> & _ & _).
    destruct (b64_char_ok _ (sextet3_bound (Byte.to_N y) 0 zero_bound))
      as (-> & -> & _).
    rewrite Ascii.eqb_refl.
    rewrite (octet1_sextets _ _ Hx Hy), (octet2_sextets (Byte.to_N x) _ 0 Hy zero_bound).
    apply cons_byte_to_N. now apply cons_byte_to_N.
  - pose proof (byte_bound x) as Hx. pose proof (byte_bound y) as Hy.
    pose proof (byte_bound z) as Hz.
    rewrite b64encode_three, b64decode_group.
    destruct (b64_char_ok _ (sextet1_bound _ Hx)) as (-> & _ & _).
    destruct (b64_char_ok _ (sextet2_bound (Byte.to_N x) _ Hy)) as (-> & _ & _).
    destruct (b64_char_ok _ (sextet3_bound (Byte.to_N y) _ Hz)) as (-> & _ & _).
    destruct (b64_char_ok _ (sextet4_bound (Byte.to_N z))) as (-> & -> & _).
    rewrite (octet1_sextets _ _ Hx Hy), (octet2_sextets (Byte.to_N x) _ _ Hy Hz),
      (octet3_sextets (Byte.to_N y) _ Hz).
    do 3 apply cons_byte_to_N. exact IH.
Qed.

(** [b64encode] writes characters of the standard alphabet and the pad
    only: no line break, no [-], no [_]. *)
Lemma b64encode_standard (bs : list byte) :
  standard_b64_text (b64encode bs) = true.
Proof.
  induction bs as [|x|x y|x y z l IH] using list_ind3.
  - reflexivity.
  - pose proof (byte_bound x) as Hx.
    rewrite b64encode_one. cbn [standard_b64_text].
    destruct (b64_char_ok _ (sextet1_bound _ Hx)) as (_ & _ & ->).
    destruct (b64_char_ok _ (sextet2_bound (Byte.to_N x) 0 zero_bound)) as (_ & _ & ->).
    reflexivity.
  - pose proof (byte_bound x) as Hx. pose proof (byte_bound y) as Hy.
    rewrite b64encode_two. cbn [standard_b64_text].
    destruct (b64_char_ok _ (sextet1_bound _ Hx)) as (_ & _ & ->).
    destruct (b64_char_ok _ (sextet2_bound (Byte.to_N x) _ Hy)) as (_ & _ & ->).
    destruct (b64_char_ok _ (sextet3_bound (Byte.to_N y) 0 zero_bound)) as (_ & _ & ->).
    reflexivity.
  - pose proof (byte_bound x) as Hx. pose proof (byte_bound y) as Hy.
    pose proof (byte_bound z) as Hz.
    rewrite b64encode_three. cbn [standard_b64_text].
    destruct (b64_char_ok _ (sextet1_bound _ Hx)) as (_ & _ & ->).
    destruct (b64_char_ok _ (sextet2_bound (Byte.to_N x) _ Hy)) as (_ & _ & ->).
    destruct (b64_char_ok _ (sextet3_bound (Byte.to_N y) _ Hz)) as (_ & _ & ->).
    destruct (b64_char_ok _ (sextet4_bound (Byte.to_N z))) as (_ & _ & ->).
    rewrite IH. reflexivity.
Qed.

(** ** Bounding boxes *)

(** C3 (as the code has it): every record's [bbox] is made from what the
    geometry lookup returns for that image on that page.  With at least one
    rectangle it holds the four attributes of the first one, as floats; with
    none it holds four times the int [0], not a float. *)
Theorem bbox_of_record fs path w images w' r :
  extract_images_from_pdf fs path w = (Return images, w') ->
  In r images ->
  exists d p page u rects,
    fs path = Return d /\
    doc_getitem d p = Return page /\
    get_image_rects page (item0 u) = Return rects /\
    match rects with
    | rect :: _ =>
        dict_get "bbox" r =
          Some (PyDict [("x", PyFloat (x0 rect)); ("y", PyFloat (y0 rect));
                        ("width", PyFloat (width rect));
                        ("height", PyFloat (height rect))])
    | [] =>
        dict_get "bbox" r =
          Some (PyDict [("x", PyInt 0); ("y", PyInt 0);
                        ("width", PyInt 0); ("height", PyInt 0)])
    end.
Proof.
  intros H Hin.
  destruct (record_has_usage _ _ _ _ _ _ H Hin)
    as (d & P & p & page & il & i & u & bi & raw & e & rects
        & Hd & _ & _ & Hp & _ & _ & _ & _ & _ & Hr & ->).
  exists d, p, page, u, rects. repeat split; auto.
  destruct rects as [|rect rest]; reflexivity.
Qed.

Lemma bbox_of_record_witness :
  exists d p page u rects,
    Samples.fs "unplaced.pdf" = Return d /\
    doc_getitem d p = Return page /\
    get_image_rects page (item0 u) = Return rects /\
    match rects with
    | rect :: _ =>
        dict_get "bbox" (image_record 0 0 "png" "TWFu" zero_bbox) =
          Some (PyDict [("x", PyFloat (x0 rect)); ("y", PyFloat (y0 rect));
                        ("width", PyFloat (width rect));
                        ("height", PyFloat (height rect))])
    | [] =>
        dict_get "bbox" (image_record 0 0 "png" "TWFu" zero_bbox) =
          Some (PyDict [("x", PyInt 0); ("y", PyInt 0);
                        ("width", PyInt 0); ("height", PyInt 0)])
    end.
Proof.
  exact (bbox_of_record Samples.fs "unplaced.pdf" w0 _ _
           (image_record 0 0 "png" "TWFu" zero_bbox) eq_refl (or_introl eq_refl)).
Defined.

(** An image that is listed by its page and drawn nowhere: the four fields
    of its [bbox] are ints. *)
Lemma unplaced_bbox_is_int :
  fst (extract_images_from_pdf Samples.fs "unplaced.pdf" w0) =
    Return [image_record 0 0 "png" "TWFu"
              (PyDict [("x", PyInt 0); ("y", PyInt 0);
                       ("width", PyInt 0); ("height", PyInt 0)])] /\
  map (fun k => option_map is_float (dict_get k zero_bbox))
      ["x"; "y"; "width"; "height"]%string =
    [Some false; Some false; Some false; Some false].
Proof. split; reflexivity. Qed.

(** ** The base64 field *)

(** The encoder's table is table 1 of RFC 4648, value by value. *)
Lemma b64_char_rfc4648 k :
  (k < 64)%nat ->
  rfc4648_char (b64_char (N.of_nat k)) = true /\
  nat_of_ascii (b64_char (N.of_nat k)) = rfc4648_table k.
Proof.
  intros H.
  do 64 (destruct k as [|k]; [split; reflexivity|]).
  lia.
Qed.

Lemma b64_char_rfc4648_N n :
  (n < 64)%N -> rfc4648_char (b64_char n) = true.
Proof.
  intros H. rewrite <- (N2Nat.id n). apply b64_char_rfc4648. lia.
Qed.

(** [b64encode] writes characters of RFC 4648's table and the pad only. *)
Lemma b64encode_rfc4648 (bs : list byte) :
  rfc4648_text (b64encode bs) = true.
Proof.
  induction bs as [|x|x y|x y z l IH] using list_ind3.
  - reflexivity.
  - pose proof (byte_bound x) as Hx.
    rewrite b64encode_one. cbn [rfc4648_text].
    rewrite (b64_char_rfc4648_N _ (sextet1_bound _ Hx)).
    rewrite (b64_char_rfc4648_N _ (sextet2_bound (Byte.to_N x) 0 zero_bound)).
    reflexivity.
  - pose proof (byte_bound x) as Hx. pose proof (byte_bound y) as Hy.
    rewrite b64encode_two. cbn [rfc4648_text].
    rewrite (b64_char_rfc4648_N _ (sextet1_bound _ Hx)).
    rewrite (b64_char_rfc4648_N _ (sextet2_bound (Byte.to_N x) _ Hy)).
    rewrite (b64_char_rfc4648_N _ (sextet3_bound (Byte.to_N y) 0 zero_bound)).
    reflexivity.
  - pose proof (byte_bound x) as Hx. pose proof (byte_bound y) as Hy.
    pose proof (byte_bound z) as Hz.
    rewrite b64encode_three. cbn [rfc4648_text].
    rewrite (b64_char_rfc4648_N _ (sextet1_bound _ Hx)).
    rewrite (b64_char_rfc4648_N _ (sextet2_bound (Byte.to_N x) _ Hy)).
    rewrite (b64_char_rfc4648_N _ (sextet3_bound (Byte.to_N y) _ Hz)).
    rewrite (b64_char_rfc4648_N _ (sextet4_bound (Byte.to_N z))).
    rewrite IH. reflexivity.
Qed.

(** C9: every record is the record of one usage, the one at position
    [imageIndex] in the list of page [pageNumber - 1].  Its [base64] field
    is [b64encode] of the bytes the decoder returned for the resource of
    that usage; the text consists of characters of the standard alphabet
    ([A]-[Z], [a]-[z], [0]-[9], [+], [/]) and the pad, so it has no line
    break and none of the URL-safe characters, and decoding it gives the
    bytes back. *)
Theorem base64_field_roundtrip fs path w images w' r :
  extract_images_from_pdf fs path w = (Return images, w') ->
  In r images ->
  exists d P p page il i u bi raw,
    fs path = Return d /\
    doc_len d = Return P /\
    (p < P)%nat /\
    doc_getitem d p = Return page /\
    get_images page = Return il /\
    nth_error il i = Some u /\
    page_number r = Some (Z.of_nat p + 1) /\
    image_index r = Some (Z.of_nat i) /\
    extract_image d (item0 u) = Return bi /\
    image bi = Some raw /\
    dict_get "base64" r = Some (PyStr (b64encode raw)) /\
    rfc4648_text (b64encode raw) = true /\
    b64decode (b64encode raw) = Some raw.
Proof.
  intros H Hin.
  destruct (record_has_usage _ _ _ _ _ _ H Hin)
    as (d & P & p & page & il & i & u & bi & raw & e & rects
        & Hd & HP & Hlt & Hp & Hil & Hu & Hbi & Hraw & _ & _ & ->).
  exists d, P, p, page, il, i, u, bi, raw.
  repeat (split; [first [assumption | reflexivity]|]).
  split; [apply b64encode_rfc4648 | apply b64decode_b64encode].
Qed.

Lemma base64_field_roundtrip_witness :
  exists d P p page il i u bi raw,
    fs_two_images "two.pdf" = Return d /\
    doc_len d = Return P /\
    (p < P)%nat /\
    doc_getitem d p = Return page /\
    get_images page = Return il /\
    nth_error il i = Some u /\
    page_number (image_record 0 1 "jpeg" "/9g=" (rect_bbox Samples.r2)) =
      Some (Z.of_nat p + 1) /\
    image_index (image_record 0 1 "jpeg" "/9g=" (rect_bbox Samples.r2)) =
      Some (Z.of_nat i) /\
    extract_image d (item0 u) = Return bi /\
    image bi = Some raw /\
    dict_get "base64" (image_record 0 1 "jpeg" "/9g=" (rect_bbox Samples.r2)) =
      Some (PyStr (b64encode raw)) /\
    rfc4648_text (b64encode raw) = true /\
    b64decode (b64encode raw) = Some raw.
Proof.
  exact (base64_field_roundtrip fs_two_images "two.pdf" w0 _ _
           (image_record 0 1 "jpeg" "/9g=" (rect_bbox Samples.r2))
           eq_refl (or_intror (or_introl eq_refl))).
Defined.

(** ** One resource, two usages *)


(** C4 (as the code has it): when a page lists the same resource at two
    positions and the geometry lookup returns the rectangles [ra :: more]
    for that resource on that page, the output has the record of each of the
    two usages; the two records differ in [imageIndex], have the same
    [format] and [base64] (those of the resource), and both have the [bbox]
    of [ra], the first rectangle returned: its [x0], [y0], [width] and
    [height], as floats, whatever [more] holds.  The lookup is by resource,
    so the second usage gets no bounding box of its own. *)
Theorem same_resource_same_bbox
    fs path w images w' d P p page il i j u v ra more :
  extract_images_from_pdf fs path w = (Return images, w') ->
  fs path = Return d ->
  doc_len d = Return P ->
  (p < P)%nat ->
  doc_getitem d p = Return page ->
  get_images page = Return il ->
  i <> j ->
  nth_error il i = Some u ->
  nth_error il j = Some v ->
  item0 u = item0 v ->
  get_image_rects page (item0 u) = Return (ra :: more) ->
  exists ri rj bi e raw,
    extract_one d page p i u = Return ri /\
    extract_one d page p j v = Return rj /\
    record_at images p i ri /\
    record_at images p j rj /\
    ri <> rj /\
    extract_image d (item0 u) = Return bi /\
    ext bi = Some e /\
    image bi = Some raw /\
    dict_get "format" ri = Some (PyStr e) /\
    dict_get "format" rj = Some (PyStr e) /\
    dict_get "base64" ri = Some (PyStr (b64encode raw)) /\
    dict_get "base64" rj = Some (PyStr (b64encode raw)) /\
    dict_get "bbox" ri =
      Some (PyDict [("x", PyFloat (x0 ra)); ("y", PyFloat (y0 ra));
                    ("width", PyFloat (width ra));
                    ("height", PyFloat (height ra))]) /\
    dict_get "bbox" rj =
      Some (PyDict [("x", PyFloat (x0 ra)); ("y", PyFloat (y0 ra));
                    ("width", PyFloat (width ra));
                    ("height", PyFloat (height ra))]).
Proof.
  intros H Hd HP Hlt Hp Hil Hij Hu Hv Huv Hrects.
  destruct (usage_has_record _ _ _ _ _ _ _ _ _ _ _ _ H Hd HP Hlt Hp Hil Hu)
    as (bi & raw & e & rects & H1 & H2 & H3 & H4 & Hin_i).
  destruct (usage_has_record _ _ _ _ _ _ _ _ _ _ _ _ H Hd HP Hlt Hp Hil Hv)
    as (bi' & raw' & e' & rects' & H1' & H2' & H3' & H4' & Hin_j).
  rewrite <- Huv in H1', H4'.
  rewrite H1 in H1'. injection H1' as <-.
  rewrite H2 in H2'. injection H2' as <-.
  rewrite H3 in H3'. injection H3' as <-.
  rewrite H4 in H4'. injection H4' as <-.
  rewrite Hrects in H4. injection H4 as <-.
  exists (image_record p i e (b64encode raw) (bbox_of_rects (ra :: more))),
         (image_record p j e (b64encode raw) (bbox_of_rects (ra :: more))),
         bi, e, raw.
  split; [unfold extract_one; rewrite H1; simpl; rewrite H2; simpl;
          rewrite H3; simpl; rewrite Hrects; reflexivity|].
  split; [unfold extract_one; rewrite <- Huv, H1; simpl; rewrite H2; simpl;
          rewrite H3; simpl; rewrite Hrects; reflexivity|].
  split; [split; [exact Hin_i | split; reflexivity]|].
  split; [split; [exact Hin_j | split; reflexivity]|].
  split; [|repeat split; first [assumption | reflexivity]].
  intros Heq. unfold image_record in Heq. injection Heq as Heq. lia.
Qed.

Lemma same_resource_same_bbox_witness :
  exists ri rj bi e raw,
    extract_one Samples.doc_twice Samples.page_twice 0 0 Samples.usage7 =
      Return ri /\
    extract_one Samples.doc_twice Samples.page_twice 0 1 Samples.usage7 =
      Return rj /\
    record_at
      [image_record 0 0 "png" "TWFu" (rect_bbox Samples.r1);
       image_record 0 1 "png" "TWFu" (rect_bbox Samples.r1)] 0 0 ri /\
    record_at
      [image_record 0 0 "png" "TWFu" (rect_bbox Samples.r1);
       image_record 0 1 "png" "TWFu" (rect_bbox Samples.r1)] 0 1 rj /\
    ri <> rj /\
    extract_image Samples.doc_twice (item0 Samples.usage7) = Return bi /\
    ext bi = Some e /\
    image bi = Some raw /\
    dict_get "format" ri = Some (PyStr e) /\
    dict_get "format" rj = Some (PyStr e) /\
    dict_get "base64" ri = Some (PyStr (b64encode raw)) /\
    dict_get "base64" rj = Some (PyStr (b64encode raw)) /\
    dict_get "bbox" ri =
      Some (PyDict [("x", PyFloat (x0 Samples.r1)); ("y", PyFloat (y0 Samples.r1));
                    ("width", PyFloat (width Samples.r1));
                    ("height", PyFloat (height Samples.r1))]) /\
    dict_get "bbox" rj =
      Some (PyDict [("x", PyFloat (x0 Samples.r1)); ("y", PyFloat (y0 Samples.r1));
                    ("width", PyFloat (width Samples.r1));
                    ("height", PyFloat (height Samples.r1))]).
Proof.
  refine (same_resource_same_bbox Samples.fs "twice.pdf" w0 _ _
            Samples.doc_twice 1 0 Samples.page_twice
            [Samples.usage7; Samples.usage7] 0 1 Samples.usage7 Samples.usage7
            Samples.r1 [Samples.r2]
            eq_refl eq_refl eq_refl _ eq_refl eq_refl _ eq_refl eq_refl eq_refl
            eq_refl).
  - lia.
  - discriminate.
Defined.

(** At [twice.pdf], whose one page lists resource 7 twice while the
    resource is drawn at [r1] and at [r2], both records carry the box of
    [r1]: no reading in which each usage has its own box holds. *)
Lemma shared_bbox_counterexample :
  ~ own_bbox_per_usage Samples.fs "twice.pdf" w0.
Proof.
  intros H.
  destruct (H _ _ Samples.doc_twice 1%nat 0%nat Samples.page_twice 0%nat 1%nat
              Samples.r1 Samples.r2 eq_refl eq_refl eq_refl)
    as (ri & rj & (Hi & _ & Hii) & (Hj & _ & Hjj) & _ & _ & Hne).
  - lia.
  - reflexivity.
  - exists [Samples.usage7; Samples.usage7], Samples.usage7, Samples.usage7.
    repeat split; try reflexivity; try lia. discriminate.
  - simpl in Hi, Hj.
    destruct Hi as [<-|[<-|[]]]; destruct Hj as [<-|[<-|[]]];
      try discriminate; apply Hne; reflexivity.
Qed.

(** ** Page numbers, indices and order *)














(** ** When the routine returns *)

(** X1: the routine returns [images] exactly when [fitz.open] and [len]
    succeed and every page in turn yields its records; [images] is then the
    records of page 0, followed by those of page 1, and so on, and the
    document has been opened and closed. *)
Theorem extract_returns_iff fs path w images w' :
  extract_images_from_pdf fs path w = (Return images, w') <->
  exists d P page_recs,
    fs path = Return d /\
    doc_len d = Return P /\
    Forall2 (page_yields d) (seq 0 P) page_recs /\
    images = List.concat page_recs /\
    w' = opened_and_closed w.
Proof.
  split.
  - apply extract_Return_inv.
  - intros (d & P & page_recs & Hd & HP & Hall & -> & ->).
    now apply (extract_Return_complete fs path w d P).
Qed.

(** X2: on every input the routine either returns, and then no step fails,
    or it raises, and then the step that fails first and its exception are
    determined: the message raised is the prefix and that exception's text. *)
Theorem returns_or_first_failure fs path w :
  (exists images,
      fst (extract_images_from_pdf fs path w) = Return images /\
      forall e, ~ extraction_fails fs path e)
  \/
  (exists e,
      extraction_fails fs path e /\
      fst (extract_images_from_pdf fs path w) =
        Raise (Exn (failure_prefix ++ str_exn e)) /\
      forall e', extraction_fails fs path e' -> e' = e).
Proof.
  destruct (try_body fs path w) as [[images|e] w1] eqn:Hb.
  - left. exists images. split.
    + unfold extract_images_from_pdf. now rewrite Hb.
    + intros e He.
      pose proof (proj2 (try_body_Raise fs path w e _) (conj He eq_refl)) as Hr.
      rewrite Hb in Hr. discriminate.
  - right. exists e.
    pose proof (proj1 (try_body_Raise _ _ _ _ _) Hb) as [He _].
    split; [exact He|]. split.
    + unfold extract_images_from_pdf. now rewrite Hb.
    + intros e' He'.
      pose proof (proj2 (try_body_Raise fs path w e' _) (conj He' eq_refl)) as Hr.
      rewrite Hb in Hr. congruence.
Qed.

(** ** How many records, and where *)

Lemma Forall2_length_eq {A B} (R : A -> B -> Prop) l l' :
  Forall2 R l l' -> List.length l = List.length l'.
Proof. induction 1; simpl; congruence. Qed.

Lemma enumerate_length {A} (l : list A) :
  List.length (enumerate l) = List.length l.
Proof.
  unfold enumerate. rewrite length_combine, length_seq. apply Nat.min_id.
Qed.

Lemma page_yields_length d p recs :
  page_yields d p recs -> List.length recs = listed d p.
Proof.
  intros (page & il & Hp & Hil & H). unfold listed. rewrite Hp, Hil.
  apply Forall2_length_eq in H. rewrite enumerate_length in H. auto.
Qed.

Lemma page_recs_lengths d pns page_recs :
  Forall2 (page_yields d) pns page_recs ->
  map (@List.length pyval) page_recs = map (listed d) pns.
Proof.
  induction 1 as [|p recs pns page_recs Hy _ IH]; simpl; [reflexivity|].
  now rewrite (page_yields_length _ _ _ Hy), IH.
Qed.

Lemma length_concat_sum {A} (ll : list (list A)) :
  List.length (List.concat ll) = list_sum (map (@List.length A) ll).
Proof.
  induction ll as [|l ll IH]; simpl; [reflexivity|].
  now rewrite length_app, IH.
Qed.

Lemma nth_error_concat_at {A} (ll : list (list A)) :
  forall p l i a,
    nth_error ll p = Some l ->
    nth_error l i = Some a ->
    nth_error (List.concat ll)
              (list_sum (map (@List.length A) (firstn p ll)) + i) = Some a.
Proof.
  induction ll as [|l0 ll IH]; intros [|p] l i a Hl Ha; simpl in *;
    try discriminate.
  - injection Hl as ->. rewrite nth_error_app1; [exact Ha|].
    apply nth_error_Some. congruence.
  - rewrite nth_error_app2 by lia.
    replace (List.length l0 + list_sum (map (@List.length A) (firstn p ll)) + i
             - List.length l0)%nat
      with (list_sum (map (@List.length A) (firstn p ll)) + i)%nat by lia.
    eapply IH; eauto.
Qed.

Lemma firstn_seq p P : (p <= P)%nat -> firstn p (seq 0 P) = seq 0 p.
Proof.
  intros H. replace P with (p + (P - p))%nat by lia.
  rewrite seq_app, firstn_app, length_seq, Nat.sub_diag. simpl.
  rewrite app_nil_r. rewrite <- (length_seq p 0) at 1. apply firstn_all.
Qed.

(** X3: when [main] exits with code 0, [totalImages] is the number of usages
    that the pages of the document list, summed over the pages: every
    listed usage gives one record, also when a resource is listed again. *)
Theorem total_images_counts_usages fs prog path w out w' :
  main fs [prog; path] w = (out, w') ->
  exit_code out = 0 ->
  exists d P images,
    fs path = Return d /\
    doc_len d = Return P /\
    stdout out = [JsonLine (success_envelope images)] /\
    List.length images = listed_before d P /\
    dict_get "totalImages" (success_envelope images) =
      Some (PyInt (Z.of_nat (listed_before d P))).
Proof.
  rewrite main_one_argument.
  destruct (extract_images_from_pdf fs path w) as [[images|e] w1] eqn:He;
    intros H; injection H as <- <-; simpl; intros Hc; [|discriminate].
  apply extract_Return_inv in He as (d & P & page_recs & Hd & HP & Hall & -> & _).
  assert (Hlen : List.length (List.concat page_recs) = listed_before d P).
  { rewrite length_concat_sum, (page_recs_lengths _ _ _ Hall). reflexivity. }
  exists d, P, (List.concat page_recs).
  repeat split; auto. unfold success_envelope. simpl. now rewrite Hlen.
Qed.

Lemma total_images_counts_usages_witness :
  exists d P images,
    Samples.fs "mixed.pdf" = Return d /\
    doc_len d = Return P /\
    [JsonLine (success_envelope
       [image_record 0 0 "png" "TWFu" (rect_bbox Samples.r1);
        image_record 0 1 "png" "TWFu" (rect_bbox Samples.r1);
        image_record 1 0 "png" "TWFu" (rect_bbox Samples.r2)])] =
      [JsonLine (success_envelope images)] /\
    List.length images = listed_before d P /\
    dict_get "totalImages" (success_envelope images) =
      Some (PyInt (Z.of_nat (listed_before d P))).
Proof.
  exact (total_images_counts_usages Samples.fs "extract_images.py" "mixed.pdf"
           w0 _ _ eq_refl eq_refl).
Defined.

(** X4: the record of the usage at position [i] of page [p] is element
    number (usages listed by the pages before [p]) + [i] of the returned
    list, counted from 0. *)
Theorem record_position fs path w images w' d P p page il i u :
  extract_images_from_pdf fs path w = (Return images, w') ->
  fs path = Return d ->
  doc_len d = Return P ->
  (p < P)%nat ->
  doc_getitem d p = Return page ->
  get_images page = Return il ->
  nth_error il i = Some u ->
  exists r,
    nth_error images (listed_before d p + i) = Some r /\
    page_number r = Some (Z.of_nat p + 1) /\
    image_index r = Some (Z.of_nat i) /\
    extract_one d page p i u = Return r.
Proof.
  intros H Hd HP Hlt Hp Hil Hu.
  apply extract_Return_inv in H as (d' & P' & page_recs & Hd' & HP' & Hall & -> & _).
  rewrite Hd in Hd'. injection Hd' as <-.
  rewrite HP in HP'. injection HP' as <-.
  destruct (page_recs_nth _ _ _ _ Hall Hlt) as (recs & Hrecs & Hy).
  pose proof (page_yields_fun _ _ _ _ _ Hp Hil Hy) as Hf.
  destruct (Forall2_nth_l _ _ _ Hf i (i, u) (enumerate_nth il i u Hu))
    as (r & Hr & Hrec).
  unfold record_of in Hrec. simpl in Hrec.
  exists r. split; [|split; [|split; [|exact Hrec]]].
  - pose proof (nth_error_concat_at page_recs p recs i r Hrecs Hr) as Hn.
    rewrite <- firstn_map, (page_recs_lengths _ _ _ Hall), firstn_map in Hn.
    rewrite firstn_seq in Hn by lia. exact Hn.
  - apply extract_one_inv in Hrec as (? & ? & ? & ? & _ & _ & _ & _ & ->).
    reflexivity.
  - apply extract_one_inv in Hrec as (? & ? & ? & ? & _ & _ & _ & _ & ->).
    reflexivity.
Qed.

Lemma record_position_witness :
  exists r,
    nth_error
      [image_record 0 0 "png" "TWFu" (rect_bbox Samples.r1);
       image_record 0 1 "png" "TWFu" (rect_bbox Samples.r1);
       image_record 1 0 "png" "TWFu" (rect_bbox Samples.r2)]
      (listed_before Samples.doc_mixed 1 + 0) = Some r /\
    page_number r = Some (Z.of_nat 1 + 1) /\
    image_index r = Some (Z.of_nat 0) /\
    extract_one Samples.doc_mixed Samples.page_one 1 0 Samples.usage9 = Return r.
Proof.
  refine (record_position Samples.fs "mixed.pdf" w0 _ _ Samples.doc_mixed 2 1
            Samples.page_one [Samples.usage9] 0 Samples.usage9
            eq_refl eq_refl eq_refl _ eq_refl eq_refl eq_refl).
  lia.
Defined.

(** ** What a record holds *)

(** X5: every record is the record of the usage at position [imageIndex]
    in the list of page [pageNumber - 1], and its [format] is the [ext] that
    the decoder returned for the resource of that usage, as it is. *)
Theorem format_is_ext fs path w images w' r :
  extract_images_from_pdf fs path w = (Return images, w') ->
  In r images ->
  exists d P p page il i u bi e,
    fs path = Return d /\
    doc_len d = Return P /\
    (p < P)%nat /\
    doc_getitem d p = Return page /\
    get_images page = Return il /\
    nth_error il i = Some u /\
    page_number r = Some (Z.of_nat p + 1) /\
    image_index r = Some (Z.of_nat i) /\
    extract_image d (item0 u) = Return bi /\
    ext bi = Some e /\
    dict_get "format" r = Some (PyStr e).
Proof.
  intros H Hin.
  destruct (record_has_usage _ _ _ _ _ _ H Hin)
    as (d & P & p & page & il & i & u & bi & raw & e & rects
        & Hd & HP & Hlt & Hp & Hil & Hu & Hbi & _ & He & _ & ->).
  exists d, P, p, page, il, i, u, bi, e.
  repeat (split; [first [assumption | reflexivity]|]).
  reflexivity.
Qed.

Lemma format_is_ext_witness :
  exists d P p page il i u bi e,
    fs_two_images "two.pdf" = Return d /\
    doc_len d = Return P /\
    (p < P)%nat /\
    doc_getitem d p = Return page /\
    get_images page = Return il /\
    nth_error il i = Some u /\
    page_number (image_record 0 1 "jpeg" "/9g=" (rect_bbox Samples.r2)) =
      Some (Z.of_nat p + 1) /\
    image_index (image_record 0 1 "jpeg" "/9g=" (rect_bbox Samples.r2)) =
      Some (Z.of_nat i) /\
    extract_image d (item0 u) = Return bi /\
    ext bi = Some e /\
    dict_get "format" (image_record 0 1 "jpeg" "/9g=" (rect_bbox Samples.r2)) =
      Some (PyStr e).
Proof.
  exact (format_is_ext fs_two_images "two.pdf" w0 _ _
           (image_record 0 1 "jpeg" "/9g=" (rect_bbox Samples.r2))
           eq_refl (or_intror (or_introl eq_refl))).
Defined.

(** X6: every record is a dict with the keys [pageNumber], [imageIndex],
    [format], [base64], [bbox], in this order, and its [bbox] is a dict with
    the keys [x], [y], [width], [height], in this order. *)
Theorem record_shape fs path w images w' r :
  extract_images_from_pdf fs path w = (Return images, w') ->
  In r images ->
  dict_keys r = ["pageNumber"; "imageIndex"; "format"; "base64"; "bbox"]%string /\
  exists bb,
    dict_get "bbox" r = Some bb /\
    dict_keys bb = ["x"; "y"; "width"; "height"]%string.
Proof.
  intros H Hin.
  destruct (record_has_usage _ _ _ _ _ _ H Hin)
    as (d & P & p & page & il & i & u & bi & raw & e & rects
        & _ & _ & _ & _ & _ & _ & _ & _ & _ & _ & ->).
  split; [reflexivity|].
  exists (bbox_of_rects rects). split; [reflexivity|].
  destruct rects; reflexivity.
Qed.

Lemma record_shape_witness :
  dict_keys (image_record 0 1 "png" "TWFu" (rect_bbox Samples.r1)) =
    ["pageNumber"; "imageIndex"; "format"; "base64"; "bbox"]%string /\
  exists bb,
    dict_get "bbox" (image_record 0 1 "png" "TWFu" (rect_bbox Samples.r1)) =
      Some bb /\
    dict_keys bb = ["x"; "y"; "width"; "height"]%string.
Proof.
  exact (record_shape Samples.fs "twice.pdf" w0 _ _
           (image_record 0 1 "png" "TWFu" (rect_bbox Samples.r1))
           eq_refl (or_intror (or_introl eq_refl))).
Defined.

(** ** Handles over several runs *)

Lemma world_after fs path w :
  snd (extract_images_from_pdf fs path w) =
  match fs path with
  | Raise _ => w
  | Return _ =>
      match fst (extract_images_from_pdf fs path w) with
      | Return _ => opened_and_closed w
      | Raise _ => opened_only w
      end
  end.
Proof.
  unfold extract_images_from_pdf, try_body, bind, fitz_open, lift, doc_close, ret.
  destruct (fs path) as [d|e]; simpl; [|reflexivity].
  destruct (doc_len d) as [P|e]; simpl; [|reflexivity].
  destruct (pages_loop d (seq 0 P) []); reflexivity.
Qed.

Lemma existsb_filter_other i n l :
  i <> n ->
  existsb (Nat.eqb i) (filter (fun j => negb (Nat.eqb j n)) l) =
  existsb (Nat.eqb i) l.
Proof.
  intros Hne. induction l as [|j l IH]; simpl; [reflexivity|].
  destruct (Nat.eqb j n) eqn:Hj; simpl.
  - apply Nat.eqb_eq in Hj. subst j.
    apply Nat.eqb_neq in Hne. rewrite Hne. exact IH.
  - now rewrite IH.
Qed.

(** X7: a run of the routine changes the state of no document but the one
    it opens: a handle other than its own is open afterwards exactly if it
    was open before, whether the run returns or raises; and when the run
    returns, its own document is closed. *)
Theorem other_handles_untouched fs path w r w' :
  extract_images_from_pdf fs path w = (r, w') ->
  (forall i, i <> next_id w -> is_open i w' = is_open i w) /\
  (forall images, r = Return images -> is_open (next_id w) w' = false).
Proof.
  intros H.
  pose proof (world_after fs path w) as Hs. rewrite H in Hs. simpl in Hs.
  split.
  - intros i Hi.
    assert (Ho : is_open i (opened_only w) = is_open i w).
    { unfold is_open, opened_only. simpl.
      apply Nat.eqb_neq in Hi. now rewrite Hi. }
    assert (Hc : is_open i (opened_and_closed w) = is_open i w).
    { unfold is_open, opened_and_closed. simpl.
      rewrite Nat.eqb_refl. simpl. now apply existsb_filter_other. }
    destruct (fs path) as [d|e]; [destruct r|]; subst w'; auto.
  - intros images ->.
    apply extract_Return_inv in H as (d & _ & _ & _ & _ & _ & _ & ->).
    apply is_open_opened_and_closed.
Qed.

Lemma other_handles_untouched_witness :
  is_open 2 (snd (extract_images_from_pdf fs_two_images "two.pdf" w_busy)) = true /\
  is_open 1 (snd (extract_images_from_pdf fs_two_images "two.pdf" w_busy)) = false /\
  is_open 3 (snd (extract_images_from_pdf fs_two_images "two.pdf" w_busy)) = false.
Proof.
  destruct (other_handles_untouched fs_two_images "two.pdf" w_busy _ _
              (surjective_pairing _))
    as [Hother Hown].
  split; [|split].
  - rewrite (Hother 2%nat); [reflexivity | discriminate].
  - rewrite (Hother 1%nat); [reflexivity | discriminate].
  - exact (Hown _ eq_refl).
Defined.

(** ** The adapter on every argument vector *)

Lemma prefix_not_empty (m : string) : (failure_prefix ++ m)%string <> EmptyString.
Proof. discriminate. Qed.

(** X9: when [fitz.open] itself raises, as for a missing file, [main] writes
    the failure envelope to standard error and nothing to standard output,
    exits with code 1, and no document is opened; the [error] text is the
    prefix and the text of that exception, so it is not empty. *)
Theorem open_failure_opens_nothing fs prog path w e :
  fs path = Raise e ->
  main fs [prog; path] w =
    (mkOutcome []
       [JsonLine (PyDict [("success", PyBool false);
                          ("error", PyStr (failure_prefix ++ str_exn e)%string)])]
       1, w) /\
  (failure_prefix ++ str_exn e)%string <> EmptyString.
Proof.
  intros H. split; [|apply prefix_not_empty].
  rewrite main_one_argument, (extract_Raise _ _ w _ (open_fails _ _ _ H)), H.
  reflexivity.
Qed.

Lemma open_failure_opens_nothing_witness :
  main Samples.fs ["extract_images.py"; "missing.pdf"]%string w0 =
    (mkOutcome []
       [JsonLine (PyDict [("success", PyBool false);
                          ("error",
                           PyStr "Failed to extract images: no such file: 'missing.pdf'")])]
       1, w0) /\
  "Failed to extract images: no such file: 'missing.pdf'"%string <> EmptyString.
Proof.
  exact (open_failure_opens_nothing Samples.fs "extract_images.py" "missing.pdf"
           w0 (Exn "no such file: 'missing.pdf'") eq_refl).
Defined.

(** X10: whatever the argument vector, [main] writes exactly one line in
    all, and the exit code is 0 or 1; it is 0 exactly when the line went to
    standard output, and a line on standard output is always JSON: the usage
    text never goes there. *)
Theorem main_writes_one_line fs argv w :
  List.length (stdout (fst (main fs argv w)) ++ stderr (fst (main fs argv w))) = 1%nat /\
  (exit_code (fst (main fs argv w)) = 0 \/ exit_code (fst (main fs argv w)) = 1) /\
  (exit_code (fst (main fs argv w)) = 0 <-> stdout (fst (main fs argv w)) <> []) /\
  forallb is_json (stdout (fst (main fs argv w))) = true.
Proof.
  unfold main.
  destruct (negb (Nat.eqb (List.length argv) 2)); simpl.
  - repeat split; auto; [discriminate | intros H; now elim H].
  - destruct (extract_images_from_pdf fs (nth 1 argv EmptyString) w) as [[images|e] w1];
      simpl; repeat split; auto; try discriminate; intros H; now elim H.
Qed.

(** X11: when the dict that the decoder returns for a usage lacks the key
    [image], or has it and lacks [ext], and every step before that usage went
    through, [main] reports the quoted name of the key as the error, after
    the prefix, and the document stays open. *)
Theorem missing_key_message
    fs prog path w d P p page_recs page il done i img todo recs bi k :
  fs path = Return d ->
  doc_len d = Return P ->
  (p < P)%nat ->
  Forall2 (page_yields d) (seq 0 p) page_recs ->
  doc_getitem d p = Return page ->
  get_images page = Return il ->
  enumerate il = done ++ (i, img) :: todo ->
  Forall2 (record_of d page p) done recs ->
  extract_image d (item0 img) = Return bi ->
  (image bi = None /\ k = "image"%string) \/
  (image bi <> None /\ ext bi = None /\ k = "ext"%string) ->
  main fs [prog; path] w =
    (mkOutcome []
       [JsonLine (PyDict [("success", PyBool false);
                          ("error",
                           PyStr ("Failed to extract images: '" ++ k ++ "'")%string)])]
       1, opened_only w).
Proof.
  intros Hd HP Hlt Hpages Hp Hil Hen Hdone Hbi Hk.
  assert (Hu : usage_fails d page img (Exn ("'" ++ k ++ "'")%string)).
  { destruct Hk as [[Hi ->]|(Hi & He & ->)].
    - eapply image_key_missing; eauto.
    - destruct (image bi) as [raw|] eqn:Hraw; [|congruence].
      eapply ext_key_missing; eauto. }
  assert (Hf : extraction_fails fs path (Exn ("'" ++ k ++ "'")%string)).
  { eapply page_fails_at; eauto. eapply usage_fails_at; eauto. }
  rewrite main_one_argument, (extract_Raise _ _ w _ Hf), Hd. reflexivity.
Qed.

Lemma missing_key_message_witness :
  main fs_keyless ["extract_images.py"; "keyless.pdf"]%string w0 =
    (mkOutcome []
       [JsonLine (PyDict [("success", PyBool false);
                          ("error", PyStr "Failed to extract images: 'image'")])]
       1, opened_only w0).
Proof.
  refine (missing_key_message fs_keyless "extract_images.py" "keyless.pdf" w0
            doc_keyless 1 0 [] Samples.page_unplaced [Samples.usage9]
            [] 0%nat Samples.usage9 [] [] (mkBase None (Some "png"%string))
            "image" eq_refl eq_refl _ _ eq_refl eq_refl eq_refl _ eq_refl _).
  - lia.
  - constructor.
  - constructor.
  - left. split; reflexivity.
Defined.

(** ** More on the base64 text *)

(** X12: the [base64] text of [n] bytes has 4 characters for every group of
    3 bytes, the last group counted in full: 4 * ceil(n / 3) in all. *)
Theorem b64encode_length (bs : list byte) :
  String.length (b64encode bs) = (4 * ((List.length bs + 2) / 3))%nat.
Proof.
  induction bs as [|x|x y|x y z l IH] using list_ind3; try reflexivity.
  rewrite b64encode_three. cbn [String.length List.length]. rewrite IH.
  replace (S (S (S (List.length l))) + 2)%nat
    with ((List.length l + 2) + 1 * 3)%nat by lia.
  rewrite Nat.div_add by lia. lia.
Qed.

(** X13: different bytes never give the same [base64] text. *)
Theorem b64encode_injective (raw1 raw2 : list byte) :
  b64encode raw1 = b64encode raw2 -> raw1 = raw2.
Proof.
  intros H. apply (f_equal b64decode) in H.
  rewrite !b64decode_b64encode in H. congruence.
Qed.

Lemma b64encode_injective_witness :
  [x4d; x61] = [x4d; x61].
Proof.
  exact (b64encode_injective [x4d; x61] [x4d; x61] eq_refl).
Defined.
